(** * Derivative dynamic time warping (sktime/distances/_ddtw.py)

    A shallow embedding of the derivative preprocessor [_average_of_slope]
    and of the factory [_DdtwDistance._distance_factory] together with the
    closure [numba_ddtw_distance] it returns.

    Numeric arrays are modelled with their shape; array elements range over
    an abstract scalar type (class [Scalar]) whose instances are binary64
    floats, as numpy stores them, and exact rationals.  Structural results
    hold for every scalar type; the two algebraic results are stated for
    scalars obeying the laws of exact arithmetic (class [ExactScalar]),
    which binary64 meets only up to rounding. *)

From Stdlib Require Import List ZArith Lia Bool Arith String.
From Stdlib Require Import QArith Qcanon Ring.
From Stdlib Require Import Floats.PrimFloat.
Import ListNotations.

Close Scope Qc_scope.
Close Scope Q_scope.
Open Scope nat_scope.

Set Implicit Arguments.

(** ** Scalars *)

(** The arithmetic the array expressions use, with the three literals of
    [_average_of_slope] and the order used by parameter validation. *)
Class Scalar (F : Type) : Type := {
  fzero : F;
  fone : F;
  fadd : F -> F -> F;
  fmul : F -> F -> F;
  fsub : F -> F -> F;
  fopp : F -> F;
  quarter : F;
  half : F;
  three_quarters : F;
  fleb : F -> F -> bool
}.

(** The penalty [np.inf] that marks a forbidden mask cell. *)
Class Infinity (F : Type) : Type := { finf : F }.

(** Exact arithmetic: a commutative ring in which 0.25 + 0.5 = 0.75. *)
Class ExactScalar (F : Type) {SF : Scalar F} : Prop := {
  scalar_ring : ring_theory fzero fone fadd fmul fsub fopp (@eq F);
  quarter_plus_half : fadd quarter half = three_quarters
}.

Arguments ExactScalar F {SF}.

#[export] Instance float_Scalar : Scalar float := {|
  fzero := 0%float;
  fone := 1%float;
  fadd := PrimFloat.add;
  fmul := PrimFloat.mul;
  fsub := PrimFloat.sub;
  fopp := PrimFloat.opp;
  quarter := 0.25%float;
  half := 0.5%float;
  three_quarters := 0.75%float;
  fleb := PrimFloat.leb
|}.

#[export] Instance float_Infinity : Infinity float := {| finf := infinity |}.

#[export] Instance Qc_Scalar : Scalar Qc := {|
  fzero := Q2Qc 0%Q;
  fone := Q2Qc 1%Q;
  fadd := Qcplus;
  fmul := Qcmult;
  fsub := Qcminus;
  fopp := Qcopp;
  quarter := Q2Qc (1 # 4)%Q;
  half := Q2Qc (1 # 2)%Q;
  three_quarters := Q2Qc (3 # 4)%Q;
  fleb := fun a b => Qle_bool (this a) (this b)
|}.

(** ** Python results *)

(** The exceptions of the model.  [PyTypeError], [PyAttributeError] and
    [PyValueError] are the interpreter's; the remaining ones are the error
    kinds the specification names. *)
Inductive exn : Type :=
  | PyTypeError
  | PyAttributeError
  | PyValueError
  | InvalidParameterError
  | ShapeMismatchError
  | InsufficientLengthError
  | UnsupportedPreprocessorError
  | NoValidPathError.

Inductive result (A : Type) : Type :=
  | Ok (a : A)
  | Raise (e : exn).

Arguments Ok {A} a.
Arguments Raise {A} e.

Definition bind_result {A B : Type} (r : result A) (k : A -> result B) : result B :=
  match r with
  | Ok a => k a
  | Raise e => Raise e
  end.

Notation "'try' x <- r ;; k" := (bind_result r (fun x => k))
  (at level 10, x name, r at level 100, k at level 200).

(** ** Two-dimensional arrays *)

(** A 2-d ndarray: its rows along the time axis and the channel width, which
    an array keeps even when it has no row.  [shape0] is the number of
    rows. *)
Record ndarray (A : Type) : Type := mk_ndarray {
  shape1 : nat;
  rows : list (list A)
}.

Arguments mk_ndarray {A} shape1 rows.

Definition shape0 {A : Type} (a : ndarray A) : nat := List.length (rows a).

Definition shape {A : Type} (a : ndarray A) : nat * nat := (shape0 a, shape1 a).

(** Every row has the declared width. *)
Definition wf_ndarray {A : Type} (a : ndarray A) : bool :=
  forallb (fun r => List.length r =? shape1 a) (rows a).

(** [a[i, j]] for indices in range. *)
Definition getitem {A : Type} (a : ndarray A) (i j : nat) : option A :=
  match nth_error (rows a) i with
  | Some r => nth_error r j
  | None => None
  end.

(** One bound of a slice with step 1 on an axis of length [n]: a missing
    bound takes [default], a negative one counts from the end, and both are
    clamped to the axis. *)
Definition slice_bound (default : nat) (i : option Z) (n : nat) : nat :=
  match i with
  | None => default
  | Some z =>
      if (z <? 0)%Z then Z.to_nat (Z.max 0 (z + Z.of_nat n))
      else Nat.min (Z.to_nat z) n
  end.

(** [a[start:stop]] along the time axis. *)
Definition getslice {A : Type} (start stop : option Z) (a : ndarray A) : ndarray A :=
  let n := shape0 a in
  let lo := slice_bound 0 start n in
  let hi := slice_bound n stop n in
  mk_ndarray (shape1 a) (firstn (hi - lo) (skipn lo (rows a))).

Definition zip_with {A B C : Type} (f : A -> B -> C) (l1 : list A) (l2 : list B) : list C :=
  map (fun p => f (fst p) (snd p)) (combine l1 l2).

(** Broadcasting of one dimension: equal extents, or one of them is 1. *)
Definition broadcast_dim (d1 d2 : nat) : option nat :=
  if d1 =? d2 then Some d1
  else if d1 =? 1 then Some d2
  else if d2 =? 1 then Some d1
  else None.

(** An axis of extent [d] seen with extent [target]: itself, or its single
    entry repeated. *)
Definition stretch {B : Type} (d target : nat) (l : list B) : list B :=
  if d =? target then l
  else match l with
       | v :: _ => repeat v target
       | [] => []
       end.

(** An elementwise binary operator on two arrays, with numpy's
    broadcasting; shapes that do not broadcast raise [ValueError]. *)
Definition elementwise {A : Type} (op : A -> A -> A) (a b : ndarray A) : result (ndarray A) :=
  match broadcast_dim (shape0 a) (shape0 b), broadcast_dim (shape1 a) (shape1 b) with
  | Some n, Some m =>
      let ra := stretch (shape0 a) n (map (stretch (shape1 a) m) (rows a)) in
      let rb := stretch (shape0 b) n (map (stretch (shape1 b) m) (rows b)) in
      Ok (mk_ndarray m (zip_with (zip_with op) ra rb))
  | _, _ => Raise PyValueError
  end.

(** [c * a] for a scalar [c]. *)
Definition scalar_mul {F : Type} {SF : Scalar F} (c : F) (a : ndarray F) : ndarray F :=
  mk_ndarray (shape1 a) (map (map (fmul c)) (rows a)).

Definition ndarray_add {F : Type} {SF : Scalar F} : ndarray F -> ndarray F -> result (ndarray F) :=
  elementwise fadd.

Definition ndarray_sub {F : Type} {SF : Scalar F} : ndarray F -> ndarray F -> result (ndarray F) :=
  elementwise fsub.

(** ** The derivative preprocessor *)

(** [return 0.25 * q[2:] + 0.5 * q[1:-1] - 0.75 * q[:-2]], with the
    operations in the order the expression is written. *)
Definition _average_of_slope {F : Type} {SF : Scalar F} (q : ndarray F) : result (ndarray F) :=
  try s <- ndarray_add (scalar_mul quarter (getslice (Some 2%Z) None q))
                       (scalar_mul half (getslice (Some 1%Z) (Some (-1)%Z) q)) ;;
  ndarray_sub s (scalar_mul three_quarters (getslice None (Some (-2)%Z) q)).

(** The value of one derivative point from three consecutive points. *)
Definition slope_point {F : Type} {SF : Scalar F} (p0 p1 p2 : list F) : list F :=
  zip_with fsub
    (zip_with fadd (map (fmul quarter) p2) (map (fmul half) p1))
    (map (fmul three_quarters) p0).

(** ** The store of arrays *)

(** Arrays are passed by reference: a series, a mask or a derivative is a
    location in a store of arrays.  A new array takes the next free
    location; an in-place assignment overwrites a location. *)
Definition loc : Type := nat.

Definition heap (F : Type) : Type := list (ndarray F).

(** Computations that may read, allocate or overwrite arrays and may raise;
    the store survives an exception. *)
Definition M (F A : Type) : Type := heap F -> result A * heap F.

Section Store.
Context {F : Type}.

Definition ret {A : Type} (a : A) : M F A := fun h => (Ok a, h).

Definition raise {A : Type} (e : exn) : M F A := fun h => (Raise e, h).

Definition bind {A B : Type} (m : M F A) (k : A -> M F B) : M F B :=
  fun h =>
    match m h with
    | (Ok a, h') => k a h'
    | (Raise e, h') => (Raise e, h')
    end.

Definition lift {A : Type} (r : result A) : M F A := fun h => (r, h).

(** Dereferencing; a location outside the store cannot arise from program
    values and is reported as [PyValueError]. *)
Definition read (l : loc) : M F (ndarray F) :=
  fun h =>
    match nth_error h l with
    | Some a => (Ok a, h)
    | None => (Raise PyValueError, h)
    end.

Definition alloc (a : ndarray F) : M F loc :=
  fun h => (Ok (List.length h), h ++ [a]).

Fixpoint heap_update (h : heap F) (l : loc) (a : ndarray F) : heap F :=
  match h, l with
  | [], _ => []
  | _ :: t, O => a :: t
  | b :: t, S l' => b :: heap_update t l' a
  end.

(** [q[...] = a], the in-place assignment. *)
Definition store (l : loc) (a : ndarray F) : M F unit :=
  fun h => (Ok tt, heap_update h l a).
End Store.

Notation "'do' x <- m ;; k" := (bind m (fun x => k))
  (at level 10, x name, m at level 100, k at level 200).

(** ** Callables *)

(** A derivative callable as the factory sees it: what a call does, whether
    the object is a no_python-compiled dispatcher, and its [__name__]
    attribute when it has one. *)
Record DerivativeCallable (F : Type) : Type := mk_DerivativeCallable {
  call_derivative : loc -> M F loc;
  no_python : bool;
  dunder_name : option string
}.

Arguments mk_DerivativeCallable {F} call_derivative no_python dunder_name.

(** The module-level [_average_of_slope] object: decorated with [njit], it
    reads its argument and returns a new array. *)
Definition average_of_slope_callable {F : Type} {SF : Scalar F} : DerivativeCallable F :=
  mk_DerivativeCallable
    (fun q => do a <- read q ;; do d <- lift (_average_of_slope a) ;; alloc d)
    true
    (Some "_average_of_slope"%string).

(** ** Lower bounding *)

(** The techniques the docstring of the factory lists. *)
Inductive LowerBounding : Type :=
  | NO_BOUNDING
  | SAKOE_CHIBA
  | ITAKURA_PARALLELOGRAM.

(** [lower_bounding: Union[LowerBounding, int]] *)
Inductive lower_bounding_argument : Type :=
  | LowerBounding_enum (b : LowerBounding)
  | LowerBounding_int (z : Z).

(** [1 - No bounding, 2 - Sakoe chiba, 3 - Itakura parallelogram] *)
Definition lower_bounding_of_argument (a : lower_bounding_argument) : result LowerBounding :=
  match a with
  | LowerBounding_enum b => Ok b
  | LowerBounding_int 1 => Ok NO_BOUNDING
  | LowerBounding_int 2 => Ok SAKOE_CHIBA
  | LowerBounding_int 3 => Ok ITAKURA_PARALLELOGRAM
  | LowerBounding_int _ => Raise InvalidParameterError
  end.

Inductive BoundingStrategy (F : Type) : Type :=
  | NoBounding
  | SakoeChiba (windowRadius : Z)
  | ItakuraParallelogram (maxSlope : F).

Arguments NoBounding {F}.
Arguments SakoeChiba {F} windowRadius.
Arguments ItakuraParallelogram {F} maxSlope.

Definition strategy_of {F : Type} (b : LowerBounding) (window : Z) (itakura_max_slope : F)
  : BoundingStrategy F :=
  match b with
  | NO_BOUNDING => NoBounding
  | SAKOE_CHIBA => SakoeChiba window
  | ITAKURA_PARALLELOGRAM => ItakuraParallelogram itakura_max_slope
  end.

(** ** The collaborators of the factory

    The modules [_dtw], [_distance], [_squared], [_numba_utils] and
    [lower_bounding] are imported by [_ddtw.py] but are not among the
    sources.  What the factory takes from them is a parameter of the
    development: the DP core and the resolution of the pointwise distance as
    functions of the values of the arrays they are given (the DP core only
    reads its series and mask), the contract check on a derivative callable,
    and the geometry of the two banded strategies. *)
Class Distances (F : Type) : Type := {
  DistanceCallable : Type;
  Metric : Type;
  Kwargs : Type;
  squared_distance_factory : Metric;
  resolve_metric : ndarray F -> ndarray F -> Metric -> Kwargs -> result DistanceCallable;
  DPRecurrence : ndarray F -> ndarray F -> ndarray F -> DistanceCallable -> result F;
  is_no_python_compiled_callable : DerivativeCallable F -> bool;
  in_band : BoundingStrategy F -> nat -> nat -> nat -> nat -> bool
}.

Section Factory.
Context {F : Type} {SF : Scalar F} {I : Infinity F} {E : Distances F}.

(** A [lenX] by [lenY] grid whose cell [(i, j)] is [cell i j]. *)
Definition grid (lenX lenY : nat) (cell : nat -> nat -> F) : ndarray F :=
  mk_ndarray lenY (map (fun i => map (cell i) (seq 0 lenY)) (seq 0 lenX)).

(** Modelled from the spec: the module [lower_bounding] is not among the
    sources.  BoundingMaskBuilder [build(lenX, lenY, strategy)] fails with
    [InvalidParameterError] if [windowRadius < 0], if [maxSlope <= 0] or
    if either length is less than 1; otherwise it yields a dense grid of
    shape [len(x)] by [len(y)] whose cells hold 0 (allowed) or +infinity
    (forbidden), every cell being allowed under NoBounding. *)
Definition build_mask (lenX lenY : nat) (strategy : BoundingStrategy F) : result (ndarray F) :=
  if (lenX <? 1) || (lenY <? 1) then Raise InvalidParameterError
  else
    let banded :=
      grid lenX lenY
        (fun i j => if in_band strategy lenX lenY i j then fzero else finf) in
    match strategy with
    | NoBounding => Ok (grid lenX lenY (fun _ _ => fzero))
    | SakoeChiba windowRadius =>
        if (windowRadius <? 0)%Z then Raise InvalidParameterError else Ok banded
    | ItakuraParallelogram maxSlope =>
        if fleb maxSlope fzero then Raise InvalidParameterError else Ok banded
    end.

(** Modelled from the spec: the module [lower_bounding] is not among the
    sources.  Resolution order (1): if an explicit mask is given, use it
    and ignore strategy, window and slope (the builder is bypassed
    entirely); otherwise build via BoundingMaskBuilder from the lengths
    of [x] and [y] with the provided strategy and parameters. *)
Definition resolve_bounding_matrix (x y : loc) (lower_bounding : lower_bounding_argument)
    (window : Z) (itakura_max_slope : F) (bounding_matrix : option loc) : M F loc :=
  match bounding_matrix with
  | Some given => ret given
  | None =>
      do b <- lift (lower_bounding_of_argument lower_bounding) ;;
      do ax <- read x ;;
      do ay <- read y ;;
      do mask <- lift (build_mask (shape0 ax) (shape0 ay)
                         (strategy_of b window itakura_max_slope)) ;;
      alloc mask
  end.

(** Modelled from the spec: [sktime.distances._distance] is not among the
    sources.  [distance_factory(x, y, metric=custom_distance, **kwargs)]
    resolves the pointwise distance from the metric and the extra
    parameters forwarded to it; it reads the two series and changes
    nothing. *)
Definition distance_factory (x y : loc) (metric : Metric) (kwargs : Kwargs)
  : M F DistanceCallable :=
  do ax <- read x ;;
  do ay <- read y ;;
  lift (resolve_metric ax ay metric kwargs).

(** Modelled from the spec: [sktime.distances._dtw] is not among the
    sources.  [_dtw_numba_distance(_x, _y, _custom_distance,
    _bounding_matrix)] is the DP core [compute(seriesX, seriesY, mask,
    pointwiseDistance)]: it only reads the two series and the mask, and its
    cost table is released at the end of the call. *)
Definition _dtw_numba_distance (_x _y : loc) (custom_distance : DistanceCallable)
    (bounding_matrix : loc) : M F F :=
  do ax <- read _x ;;
  do ay <- read _y ;;
  do mask <- read bounding_matrix ;;
  lift (DPRecurrence ax ay mask custom_distance).

(** The keyword arguments of [_distance_factory]; an absent one takes the
    default of the signature. *)
Record ddtw_arguments : Type := mk_ddtw_arguments {
  lower_bounding : option lower_bounding_argument;
  window : option Z;
  itakura_max_slope : option F;
  custom_distance : option Metric;
  bounding_matrix : option loc;
  compute_derivative : option (DerivativeCallable F);
  kwargs : Kwargs
}.

Definition default {A : Type} (d : A) (o : option A) : A :=
  match o with
  | Some a => a
  | None => d
  end.

(** The free variables of [numba_ddtw_distance]. *)
Record ddtw_closure : Type := mk_ddtw_closure {
  closure_compute_derivative : DerivativeCallable F;
  _custom_distance : DistanceCallable;
  _bounding_matrix : loc
}.

(** [_x = compute_derivative(_x); _y = compute_derivative(_y);
    return _dtw_numba_distance(_x, _y, _custom_distance, _bounding_matrix)] *)
Definition numba_ddtw_distance (c : ddtw_closure) (_x _y : loc) : M F F :=
  do _x <- call_derivative (closure_compute_derivative c) _x ;;
  do _y <- call_derivative (closure_compute_derivative c) _y ;;
  _dtw_numba_distance _x _y (_custom_distance c) (_bounding_matrix c).

(** The f-string of the error message reads [compute_derivative.__name__]. *)
Definition getattr_name (f : DerivativeCallable F) : M F string :=
  match dunder_name f with
  | Some n => ret n
  | None => raise PyAttributeError
  end.

(** [_DdtwDistance._distance_factory].  The statement
    [raise (f"The derivative callable must be ...")] raises a [str], which
    the interpreter turns into [TypeError]. *)
Definition _distance_factory (x y : loc) (a : ddtw_arguments) : M F ddtw_closure :=
  let lower_bounding := default (LowerBounding_enum NO_BOUNDING) (lower_bounding a) in
  let window := default 2%Z (window a) in
  let itakura_max_slope := default (fadd fone fone) (* 2.0 *) (itakura_max_slope a) in
  let custom_distance := default squared_distance_factory (custom_distance a) in
  let compute_derivative := default average_of_slope_callable (compute_derivative a) in
  do _bounding_matrix <-
    resolve_bounding_matrix x y lower_bounding window itakura_max_slope
      (bounding_matrix a) ;;
  if negb (is_no_python_compiled_callable compute_derivative) then
    do _name <- getattr_name compute_derivative ;;
    raise PyTypeError
  else
    do _custom_distance <- distance_factory x y custom_distance (kwargs a) ;;
    ret (mk_ddtw_closure compute_derivative _custom_distance _bounding_matrix).

(** The specialized function in the specification's words: on each call it
    applies the preprocessor to both inputs, then invokes DPRecurrence
    with the resolved mask and pointwise distance. *)
Definition spec_specialized_distance (preprocessor : loc -> M F loc)
    (mask : loc) (pointwise : DistanceCallable) (x y : loc) : M F F :=
  do dx <- preprocessor x ;;
  do dy <- preprocessor y ;;
  do sx <- read dx ;;
  do sy <- read dy ;;
  do m <- read mask ;;
  lift (DPRecurrence sx sy m pointwise).

(** A preprocessor that is a function of the value of its argument and
    returns its result in a new array. *)
Definition pure_preprocessor (f : DerivativeCallable F) : Prop :=
  exists g : ndarray F -> result (ndarray F),
    forall q h,
      call_derivative f q h
      = (do a <- read q ;; do d <- lift (g a) ;; alloc d) h.
End Factory.

(** The linear combination [a * p + b * q] of two points. *)
Definition combine_points {F : Type} {SF : Scalar F} (a b : F) (p q : list F) : list F :=
  zip_with fadd (map (fmul a) p) (map (fmul b) q).

(** The rows of the derivative, three consecutive points at a time. *)
Fixpoint derivative_rows {F : Type} {SF : Scalar F} (l : list (list F)) : list (list F) :=
  match l with
  | p0 :: t =>
      match t with
      | p1 :: p2 :: _ => slope_point p0 p1 p2 :: derivative_rows t
      | _ => []
      end
  | [] => []
  end.

(** A no_python-compiled callable that is not a function of values: it
    halves its argument in place and returns it ([q *= 0.5; return q]). *)
Definition halve_in_place {F : Type} {SF : Scalar F} : DerivativeCallable F :=
  mk_DerivativeCallable
    (fun q => do a <- read q ;; do _u <- store q (scalar_mul half a) ;; ret q)
    true
    (Some "halve_in_place"%string).

(** An interpreted Python function: not compiled, but with a name. *)
Definition interpreted_average_of_slope {F : Type} {SF : Scalar F} : DerivativeCallable F :=
  mk_DerivativeCallable
    (call_derivative average_of_slope_callable)
    false
    (Some "average_of_slope"%string).

(** ** A binary64 instance of the collaborators

    One implementation of the parameters, used to run the factory on
    concrete series: the squared pointwise distance, the DTW recurrence over
    a masked grid, the contract check as the [no_python] flag, and a
    scaled-diagonal band and a two-slope parallelogram as band geometry. *)
Module Reference.
Inductive metric : Type :=
  | squared_factory
  | identifier (name : string).

Definition squared_distance (p q : list float) : float :=
  fold_left PrimFloat.add (zip_with (fun a b => ((a - b) * (a - b))%float) p q) 0%float.

Definition lookup_metric (x y : ndarray float) (m : metric) (kwargs : list string)
  : result (list float -> list float -> float) :=
  match kwargs with
  | _ :: _ => Raise InvalidParameterError
  | [] =>
      match m with
      | squared_factory => Ok squared_distance
      | identifier name =>
          if String.eqb name "squared" then Ok squared_distance
          else Raise InvalidParameterError
      end
  end.

Definition fmin (a b : float) : float := if PrimFloat.leb a b then a else b.

Definition is_forbidden (c : float) : bool := PrimFloat.eqb c infinity.

(** Row [i] of the cost table from row [i - 1], left to right. *)
Fixpoint dp_row (d : list float -> list float -> float) (xi : list float)
    (ys : list (list float)) (ms : list float) (prev : list float) (left : float)
  : list float :=
  match ys, ms, prev with
  | yj :: ys', m :: ms', diag :: prev' =>
      match prev' with
      | up :: _ =>
          let c := if is_forbidden m then infinity
                   else (d xi yj + fmin up (fmin left diag))%float in
          c :: dp_row d xi ys' ms' prev' c
      | [] => []
      end
  | _, _, _ => []
  end.

Fixpoint dp_rows (d : list float -> list float -> float) (xs ys : list (list float))
    (mask : list (list float)) (prev : list float) : list float :=
  match xs, mask with
  | xi :: xs', mi :: mask' =>
      dp_rows d xs' ys mask' (infinity :: dp_row d xi ys mi prev infinity)
  | _, _ => prev
  end.

Definition dp_recurrence (x y mask : ndarray float)
    (d : list float -> list float -> float) : result float :=
  if (shape0 mask <? shape0 x) || (shape1 mask <? shape0 y)
  then Raise ShapeMismatchError
  else
    let row0 := 0%float :: repeat infinity (shape0 y) in
    let cost := last (dp_rows d (rows x) (rows y) (rows mask) row0) infinity in
    if is_forbidden cost then Raise NoValidPathError else Ok cost.

Fixpoint float_of_nat (n : nat) : float :=
  match n with
  | O => 0%float
  | S k => (float_of_nat k + 1)%float
  end.

Definition band (strategy : BoundingStrategy float) (lenX lenY i j : nat) : bool :=
  match strategy with
  | NoBounding => true
  | SakoeChiba r =>
      (Z.abs (Z.of_nat i * Z.of_nat lenY - Z.of_nat j * Z.of_nat lenX)
       <=? r * Z.of_nat lenX)%Z
  | ItakuraParallelogram s =>
      let fi := float_of_nat i in
      let fj := float_of_nat j in
      let ei := float_of_nat (lenX - 1 - i) in
      let ej := float_of_nat (lenY - 1 - j) in
      (PrimFloat.leb fj (s * fi) && PrimFloat.leb fi (s * fj)
       && PrimFloat.leb ej (s * ei) && PrimFloat.leb ei (s * ej))%float
  end.

#[export] Instance distances : Distances float := {|
  DistanceCallable := list float -> list float -> float;
  Metric := metric;
  Kwargs := list string;
  squared_distance_factory := squared_factory;
  resolve_metric := lookup_metric;
  DPRecurrence := dp_recurrence;
  is_no_python_compiled_callable := @no_python float;
  in_band := band
|}.

(** Two series of four points and one channel, and a store holding them
    at locations 0 and 1. *)
Definition series_x : ndarray float :=
  mk_ndarray 1 [[1%float]; [2%float]; [4%float]; [7%float]].

Definition series_y : ndarray float :=
  mk_ndarray 1 [[1%float]; [3%float]; [4%float]; [9%float]].

Definition two_series : heap float := [series_x; series_y].

(** A series of two points. *)
Definition short_series : ndarray float := mk_ndarray 1 [[1%float]; [2%float]].

(** A call of the factory with positional [x] and [y] only. *)
Definition no_arguments : ddtw_arguments :=
  mk_ddtw_arguments None None None None None None [].

(** [compute_derivative=halve_in_place] *)
Definition in_place_arguments : ddtw_arguments :=
  mk_ddtw_arguments None None None None None (Some halve_in_place) [].

(** [compute_derivative=] an interpreted function. *)
Definition interpreted_arguments : ddtw_arguments :=
  mk_ddtw_arguments None None None None None (Some interpreted_average_of_slope) [].

(** [lower_bounding=2, window=1]: the Sakoe-Chiba band of radius 1. *)
Definition sakoe_chiba_arguments : ddtw_arguments :=
  mk_ddtw_arguments (Some (LowerBounding_int 2)) (Some 1%Z) None None None None [].

(** [lower_bounding=7, window=-1, itakura_max_slope=-1.0, bounding_matrix=]
    the array at location 2: an explicit mask next to a strategy, a window
    and a slope that no builder accepts. *)
Definition ignored_strategy_arguments : ddtw_arguments :=
  mk_ddtw_arguments (Some (LowerBounding_int 7)) (Some (-1)%Z) (Some (-1)%float) None
    (Some 2) None [].

(** The mask of two series of four points under no bounding. *)
Definition open_mask : ndarray float := grid 4 4 (fun _ _ => 0%float).

(** The closure and the store after [_distance_factory(x, y)] on
    [two_series]. *)
Definition default_closure : ddtw_closure :=
  mk_ddtw_closure average_of_slope_callable squared_distance 2.

Definition after_factory : heap float := two_series ++ [open_mask].

(** The closure of [in_place_arguments]. *)
Definition in_place_closure : ddtw_closure :=
  mk_ddtw_closure halve_in_place squared_distance 2.

(** The mask of two series of four points under the band of
    [sakoe_chiba_arguments]. *)
Definition banded_mask : ndarray float :=
  mk_ndarray 4
    [[0%float; 0%float; infinity; infinity];
     [0%float; 0%float; 0%float; infinity];
     [infinity; 0%float; 0%float; 0%float];
     [infinity; infinity; 0%float; 0%float]].

(** The derivatives of the two series, and the store after a call of the
    closure on them. *)
Definition derivative_x : ndarray float := mk_ndarray 1 [[1.25%float]; [2.25%float]].

Definition derivative_y : ndarray float := mk_ndarray 1 [[1.75%float]; [2%float]].

Definition after_call : heap float := after_factory ++ [derivative_x; derivative_y].

(** [series_x] after [halve_in_place]. *)
Definition halved_x : ndarray float :=
  mk_ndarray 1 [[0.5%float]; [1%float]; [2%float]; [3.5%float]].

(** Two series of three points and two channels over the rationals. *)
Definition rational (n : Z) : Qc := Q2Qc (inject_Z n).

Definition constant_series : ndarray Qc :=
  mk_ndarray 2 (repeat [rational 5; rational (-3)] 3).

Definition rising_series : ndarray Qc :=
  mk_ndarray 2 [[rational 0; rational 1]; [rational 2; rational 4]; [rational 6; rational 9]].

(** Constant binary64 series of three points: of the two channels 1 and 2,
    of the value infinity, and of the least positive binary64 number. *)
Definition constant_float_series : ndarray float :=
  mk_ndarray 2 (repeat [1%float; 2%float] 3).

Definition infinite_series : ndarray float := mk_ndarray 1 (repeat [infinity] 3).

Definition least_positive : float := 0x1p-1074%float.

Definition tiny_series : ndarray float := mk_ndarray 1 (repeat [least_positive] 3).


End Reference.

Export Reference.

(** ** Further callables and series *)

(** A callable object without a [__name__] attribute, such as a
    [functools.partial], that is not compiled. *)
Definition unnamed_derivative {F : Type} {SF : Scalar F} : DerivativeCallable F :=
  mk_DerivativeCallable (call_derivative average_of_slope_callable) false None.

(** [x + offset] for an [offset] of shape [(1, m)], which numpy broadcasts
    along the time axis. *)
Definition add_offset {F : Type} {SF : Scalar F} (x : ndarray F) (offset : list F)
  : result (ndarray F) :=
  ndarray_add x (mk_ndarray (shape1 x) [offset]).

(** [compute_derivative=] a callable without a name. *)
Definition unnamed_arguments : ddtw_arguments :=
  mk_ddtw_arguments None None None None None (Some unnamed_derivative) [].

(** A series of five points and two channels over the rationals, on a
    straight line in each channel. *)
Definition line_series : ndarray Qc :=
  mk_ndarray 2
    [[rational 1; rational 0]; [rational 3; rational (-1)]; [rational 5; rational (-2)];
     [rational 7; rational (-3)]; [rational 9; rational (-4)]].

(** ** MiniRocket (sktime/transformations/panel/rocket)

    The two transformers [MiniRocket] and [MiniRocketMultivariate] wrap
    numba kernels that are not among the sources.  The wrappers are
    embedded: the handling of [random_state], the selection of the first
    dimension, the guard on the series length, and the setting and
    restoring of numba's number of threads around the kernel. *)
Module Rocket.
(** The values [random_state] may take: [None], an [int], a [bool] (a
    subclass of [int]) or an object of another type. *)
Inductive py_object : Type :=
  | PyNone
  | PyInt (z : Z)
  | PyBool (b : bool)
  | PyOther (type_name : string).

(** [isinstance(o, int)] *)
Definition isinstance_int (o : py_object) : bool :=
  match o with
  | PyInt _ | PyBool _ => true
  | PyNone | PyOther _ => false
  end.

(** The integer an [int] or a [bool] stands for. *)
Definition int_of (o : py_object) : Z :=
  match o with
  | PyInt z => z
  | PyBool true => 1%Z
  | _ => 0%Z
  end.

Inductive py_error : Type :=
  | ValueError
  | IndexError
  | AttributeError
  | OverflowError
  | TypeError.

Inductive outcome (A : Type) : Type :=
  | Returns (a : A)
  | Raises (e : py_error).

Arguments Returns {A} a.
Arguments Raises {A} e.

Definition and_then {A B : Type} (r : outcome A) (k : A -> outcome B) : outcome B :=
  match r with
  | Returns a => k a
  | Raises e => Raises e
  end.

Notation "'attempt' x <- r ;; k" := (and_then r (fun x => k))
  (at level 10, x name, r at level 100, k at level 200).

(** Computations on numba's current number of threads, the one piece of
    global state the transformers touch; it survives an exception. *)
Definition Eff (A : Type) : Type := Z -> outcome A * Z.

Definition eff_ret {A : Type} (a : A) : Eff A := fun t => (Returns a, t).

Definition eff_bind {A B : Type} (m : Eff A) (k : A -> Eff B) : Eff B :=
  fun t =>
    match m t with
    | (Returns a, t') => k a t'
    | (Raises e, t') => (Raises e, t')
    end.

Definition eff_lift {A : Type} (r : outcome A) : Eff A := fun t => (r, t).

Notation "'step' x <- m ;; k" := (eff_bind m (fun x => k))
  (at level 10, x name, m at level 100, k at level 200).

(** A panel in the [numpy3D] layout: instances, each a list of dimensions,
    each a series of [series_length] points. *)
Record ndarray3 (A : Type) : Type := mk_ndarray3 {
  n_dimensions : nat;
  series_length : nat;
  instances : list (list (list A))
}.

Arguments mk_ndarray3 {A} n_dimensions series_length instances.

(** [X[:, 0, :]]: the first dimension of every instance; index 0 is out of
    bounds when the panel has no dimension. *)
Definition first_dimension {A : Type} (X : ndarray3 A) : outcome (ndarray A) :=
  if n_dimensions X =? 0 then Raises IndexError
  else Returns (mk_ndarray (series_length X) (map (fun inst => hd [] inst) (instances X))).

(** The panel reduced to its first dimension. *)
Definition only_first_dimension {A : Type} (X : ndarray3 A) : ndarray3 A :=
  mk_ndarray3 1 (series_length X) (map (firstn 1) (instances X)).

(** What the wrappers take from numpy, numba, multiprocessing and from the
    kernels of [_minirocket_numba] and [_minirocket_multi_numba]: the cast
    to float32, the conversion [np.int32], the number of processors, the
    number of threads numba has launched, and the four kernels as functions
    of their arguments. *)
Class Runtime (F F32 : Type) : Type := {
  FittedParameters : Type;
  Features : Type;
  float32 : F -> F32;
  np_int32 : Z -> outcome Z;
  cpu_count : Z;
  NUMBA_NUM_THREADS : Z;
  numba_fit : ndarray F32 -> Z -> Z -> option Z -> outcome FittedParameters;
  numba_transform : ndarray F32 -> FittedParameters -> outcome Features;
  numba_fit_multi : ndarray3 F32 -> Z -> Z -> option Z -> outcome FittedParameters;
  numba_transform_multi : ndarray3 F32 -> FittedParameters -> outcome Features
}.

Section Wrappers.
Context {F F32 : Type} {R : Runtime F F32}.

(** [.astype(np.float32)] *)
Definition astype_float32 (X : ndarray F) : ndarray F32 :=
  mk_ndarray (shape1 X) (map (map float32) (rows X)).

Definition astype_float32_3 (X : ndarray3 F) : ndarray3 F32 :=
  mk_ndarray3 (n_dimensions X) (series_length X) (map (map (map float32)) (instances X)).

(** [numba.get_num_threads()] *)
Definition get_num_threads : Eff Z := fun t => (Returns t, t).

(** [numba.set_num_threads(n)]: [n] must be between 1 and the number of
    threads launched. *)
Definition set_num_threads (n : Z) : Eff unit :=
  fun t =>
    if ((n <? 1) || (NUMBA_NUM_THREADS <? n))%Z then (Raises ValueError, t)
    else (Returns tt, n).

(** [pd.DataFrame(X_)] *)
Inductive DataFrame : Type :=
  | pd_DataFrame (values : Features).

(** [np.int32(random_state) if isinstance(random_state, int) else None] *)
Definition int32_or_None (random_state : py_object) : outcome (option Z) :=
  if isinstance_int random_state then
    attempt seed <- np_int32 (int_of random_state) ;; Returns (Some seed)
  else Returns None.

(** The number of threads [_transform] asks for:
    [cpu_count() if n_jobs < 1 or n_jobs > cpu_count() else n_jobs]. *)
Definition effective_n_jobs (n_jobs : Z) : Z :=
  if ((n_jobs <? 1) || (cpu_count <? n_jobs))%Z then cpu_count else n_jobs.

(** [self.parameters], set by [_fit] only. *)
Definition getattr_parameters (parameters : option FittedParameters)
  : outcome FittedParameters :=
  match parameters with
  | Some p => Returns p
  | None => Raises AttributeError
  end.
End Wrappers.

Module MiniRocket.
Section Univariate.
Context {F F32 : Type} {R : Runtime F F32}.

(** The attributes of a [MiniRocket] object. *)
Record MiniRocket : Type := mk_MiniRocket {
  num_kernels : Z;
  max_dilations_per_kernel : Z;
  n_jobs : Z;
  random_state : py_object;
  parameters : option FittedParameters
}.

(** [MiniRocket._fit] *)
Definition _fit (self : MiniRocket) (X : ndarray3 F) : outcome MiniRocket :=
  attempt seed <- int32_or_None (random_state self) ;;
  attempt X0 <- first_dimension X ;;
  let X := astype_float32 X0 in
  let n_timepoints := shape1 X in
  if n_timepoints <? 9 then Raises ValueError
  else
    attempt fitted <-
      numba_fit X (num_kernels self) (max_dilations_per_kernel self) seed ;;
    Returns (mk_MiniRocket (num_kernels self) (max_dilations_per_kernel self)
               (n_jobs self) (random_state self) (Some fitted)).

(** [MiniRocket._transform] *)
Definition _transform (self : MiniRocket) (X : ndarray3 F) : Eff DataFrame :=
  step X0 <- eff_lift (first_dimension X) ;;
  let X := astype_float32 X0 in
  step prev_threads <- get_num_threads ;;
  let n_jobs := effective_n_jobs (n_jobs self) in
  step _u <- set_num_threads n_jobs ;;
  step fitted <- eff_lift (getattr_parameters (parameters self)) ;;
  step X_ <- eff_lift (numba_transform X fitted) ;;
  step _v <- set_num_threads prev_threads ;;
  eff_ret (pd_DataFrame X_).
End Univariate.
End MiniRocket.

Module MiniRocketMultivariate.
Section Multivariate.
Context {F F32 : Type} {R : Runtime F F32}.

(** The attributes of a [MiniRocketMultivariate] object. *)
Record MiniRocketMultivariate : Type := mk_MiniRocketMultivariate {
  num_kernels : Z;
  max_dilations_per_kernel : Z;
  n_jobs : Z;
  random_state : py_object;
  random_state_ : option Z;
  parameters : option FittedParameters
}.

(** Whether [random_state] is [None]. *)
Definition is_None (o : py_object) : bool :=
  match o with
  | PyNone => true
  | _ => false
  end.

(** [MiniRocketMultivariate.__init__], up to the call of the base class. *)
Definition __init__ (num_kernels max_dilations_per_kernel n_jobs : Z)
    (random_state : py_object) : outcome MiniRocketMultivariate :=
  if negb (is_None random_state) && negb (isinstance_int random_state)
  then Raises ValueError
  else
    attempt random_state_ <- int32_or_None random_state ;;
    Returns (mk_MiniRocketMultivariate num_kernels max_dilations_per_kernel n_jobs
               random_state random_state_ None).

(** [MiniRocketMultivariate._fit] *)
Definition _fit (self : MiniRocketMultivariate) (X : ndarray3 F)
  : outcome MiniRocketMultivariate :=
  let X := astype_float32_3 X in
  let n_timepoints := series_length X in
  if n_timepoints <? 9 then Raises ValueError
  else
    attempt fitted <-
      numba_fit_multi X (num_kernels self) (max_dilations_per_kernel self)
        (random_state_ self) ;;
    Returns (mk_MiniRocketMultivariate (num_kernels self) (max_dilations_per_kernel self)
               (n_jobs self) (random_state self) (random_state_ self) (Some fitted)).

(** [MiniRocketMultivariate._transform] *)
Definition _transform (self : MiniRocketMultivariate) (X : ndarray3 F) : Eff DataFrame :=
  let X := astype_float32_3 X in
  step prev_threads <- get_num_threads ;;
  let n_jobs := effective_n_jobs (n_jobs self) in
  step _u <- set_num_threads n_jobs ;;
  step fitted <- eff_lift (getattr_parameters (parameters self)) ;;
  step X_ <- eff_lift (numba_transform_multi X fitted) ;;
  step _v <- set_num_threads prev_threads ;;
  eff_ret (pd_DataFrame X_).
End Multivariate.
End MiniRocketMultivariate.

(** A runtime for panels of integers, which float32 holds exactly when
    they are small: four processors, four threads launched, [np.int32]
    refusing what 32 bits cannot hold, and kernels that report the shape of
    what they are given. *)
Module Sample.
Definition int32 (z : Z) : outcome Z :=
  if ((-2147483648 <=? z) && (z <=? 2147483647))%Z then Returns z else Raises OverflowError.

Definition fit_shape (X : ndarray Z) (num_kernels max_dilations : Z) (seed : option Z)
  : outcome (list Z) :=
  Returns [Z.of_nat (shape0 X); Z.of_nat (shape1 X); num_kernels; max_dilations].

Definition transform_shape (X : ndarray Z) (fitted : list Z) : outcome (list Z) :=
  match fitted with
  | [_; length_seen; _; _] =>
      if (length_seen =? Z.of_nat (shape1 X))%Z
      then Returns (Z.of_nat (shape0 X) :: fitted)
      else Raises ValueError
  | _ => Raises ValueError
  end.

Definition fit_shape_multi (X : ndarray3 Z) (num_kernels max_dilations : Z)
    (seed : option Z) : outcome (list Z) :=
  Returns [Z.of_nat (List.length (instances X)); Z.of_nat (series_length X);
           num_kernels; max_dilations].

Definition transform_shape_multi (X : ndarray3 Z) (fitted : list Z) : outcome (list Z) :=
  match fitted with
  | [_; length_seen; _; _] =>
      if (length_seen =? Z.of_nat (series_length X))%Z
      then Returns (Z.of_nat (List.length (instances X)) :: fitted)
      else Raises ValueError
  | _ => Raises ValueError
  end.

#[export] Instance runtime : Runtime Z Z := {|
  FittedParameters := list Z;
  Features := list Z;
  float32 := fun z => z;
  np_int32 := int32;
  cpu_count := 4%Z;
  NUMBA_NUM_THREADS := 4%Z;
  numba_fit := fit_shape;
  numba_transform := transform_shape;
  numba_fit_multi := fit_shape_multi;
  numba_transform_multi := transform_shape_multi
|}.

(** A runtime that differs in the number of threads numba has launched:
    two, on the same four processors. *)
Definition few_threads : Runtime Z Z := {|
  FittedParameters := list Z;
  Features := list Z;
  float32 := fun z => z;
  np_int32 := int32;
  cpu_count := 4%Z;
  NUMBA_NUM_THREADS := 2%Z;
  numba_fit := fit_shape;
  numba_transform := transform_shape;
  numba_fit_multi := fit_shape_multi;
  numba_transform_multi := transform_shape_multi
|}.

(** Two instances, two dimensions, ten points. *)
Definition panel : ndarray3 Z :=
  mk_ndarray3 2 10
    [[[1; 2; 3; 4; 5; 6; 7; 8; 9; 10]; [0; 0; 0; 0; 0; 0; 0; 0; 0; 0]];
     [[2; 4; 6; 8; 10; 12; 14; 16; 18; 20]; [1; 1; 1; 1; 1; 1; 1; 1; 1; 1]]]%Z.

(** One instance, one dimension, eight points. *)
Definition short_panel : ndarray3 Z :=
  mk_ndarray3 1 8 [[[1; 2; 3; 4; 5; 6; 7; 8]]]%Z.

(** The panel the kernel returns for [panel] fitted and transformed. *)
Definition panel_parameters : list Z := [2; 10; 10000; 32]%Z.

Definition panel_features : list Z := (2 :: panel_parameters)%Z.

Definition panel_frame : @DataFrame Z Z runtime := pd_DataFrame panel_features.

(** [MiniRocket()] and [MiniRocket(n_jobs=-1)], not fitted and fitted on
    [panel]. *)
Definition fresh : @MiniRocket.MiniRocket Z Z runtime :=
  MiniRocket.mk_MiniRocket 10000 32 1 PyNone None.

Definition fitted : @MiniRocket.MiniRocket Z Z runtime :=
  MiniRocket.mk_MiniRocket 10000 32 1 PyNone (Some panel_parameters).

Definition fitted_all_processors : @MiniRocket.MiniRocket Z Z runtime :=
  MiniRocket.mk_MiniRocket 10000 32 (-1) PyNone (Some panel_parameters).

(** [MiniRocket(n_jobs=-1)], fitted, where numba has launched two
    threads. *)
Definition fitted_few_threads : @MiniRocket.MiniRocket Z Z few_threads :=
  @MiniRocket.mk_MiniRocket Z Z few_threads 10000 32 (-1) PyNone (Some panel_parameters).

(** [MiniRocket()], fitted, where numba has launched two threads. *)
Definition fitted_one_job_few_threads : @MiniRocket.MiniRocket Z Z few_threads :=
  @MiniRocket.mk_MiniRocket Z Z few_threads 10000 32 1 PyNone (Some panel_parameters).

Definition fresh_multivariate : @MiniRocketMultivariate.MiniRocketMultivariate Z Z runtime :=
  MiniRocketMultivariate.mk_MiniRocketMultivariate 10000 32 1 PyNone None None.

Definition fitted_multivariate : @MiniRocketMultivariate.MiniRocketMultivariate Z Z runtime :=
  MiniRocketMultivariate.mk_MiniRocketMultivariate 10000 32 1 PyNone None
    (Some panel_parameters).
End Sample.
End Rocket.

(** ** Properties of arrays and of the derivative *)

Section ListFacts.
Context {A B C : Type}.

Lemma zip_with_nil_r (f : A -> B -> C) (l : list A) : zip_with f l [] = [].
Proof. destruct l; reflexivity. Qed.

Lemma zip_with_nil_l (f : A -> B -> C) (l : list B) : zip_with f [] l = [].
Proof. reflexivity. Qed.

Lemma zip_with_cons (f : A -> B -> C) a b l1 l2 :
  zip_with f (a :: l1) (b :: l2) = f a b :: zip_with f l1 l2.
Proof. reflexivity. Qed.

Lemma length_zip_with (f : A -> B -> C) l1 l2 :
  List.length (zip_with f l1 l2) = Nat.min (List.length l1) (List.length l2).
Proof.
  unfold zip_with. rewrite length_map. apply length_combine.
Qed.

Lemma nth_error_zip_with (f : A -> B -> C) l1 l2 i a b :
  nth_error l1 i = Some a -> nth_error l2 i = Some b ->
  nth_error (zip_with f l1 l2) i = Some (f a b).
Proof.
  revert l2 i. induction l1 as [|a1 l1 IH]; intros [|b1 l2] [|i]; simpl;
    try discriminate.
  - intros H1 H2. injection H1 as ->. injection H2 as ->. reflexivity.
  - intros H1 H2. now apply IH.
Qed.
End ListFacts.

Ltac zip_nil :=
  repeat first
    [ rewrite zip_with_nil_l | rewrite zip_with_nil_r | progress cbn [map] ].

Lemma stretch_same {B : Type} (d : nat) (l : list B) : stretch d d l = l.
Proof. unfold stretch. now rewrite Nat.eqb_refl. Qed.

Lemma broadcast_dim_same (d : nat) : broadcast_dim d d = Some d.
Proof. unfold broadcast_dim. now rewrite Nat.eqb_refl. Qed.

Lemma elementwise_same_shape {A : Type} (op : A -> A -> A) (a b : ndarray A) :
  shape0 a = shape0 b -> shape1 a = shape1 b ->
  elementwise op a b = Ok (mk_ndarray (shape1 a) (zip_with (zip_with op) (rows a) (rows b))).
Proof.
  intros H0 H1. unfold elementwise. rewrite <- H0, <- H1, !broadcast_dim_same.
  rewrite !stretch_same.
  assert (Hid : forall l : list (list A), map (stretch (shape1 a) (shape1 a)) l = l).
  { intros l. rewrite <- (map_id l) at 2. apply map_ext. intros r. apply stretch_same. }
  now rewrite !Hid.
Qed.

Lemma slice_bound_neg (d : nat) (z : Z) (n : nat) :
  (z < 0)%Z -> slice_bound d (Some z) n = Z.to_nat (Z.max 0 (z + Z.of_nat n)).
Proof. intros H. unfold slice_bound. apply Z.ltb_lt in H. now rewrite H. Qed.

Lemma slice_bound_nonneg (d : nat) (z : Z) (n : nat) :
  (0 <= z)%Z -> slice_bound d (Some z) n = Nat.min (Z.to_nat z) n.
Proof. intros H. unfold slice_bound. apply Z.ltb_ge in H. now rewrite H. Qed.

Lemma slice_from_two {A : Type} (q : ndarray A) :
  getslice (Some 2%Z) None q = mk_ndarray (shape1 q) (skipn 2 (rows q)).
Proof.
  unfold getslice. rewrite (@slice_bound_nonneg 0 2) by lia. unfold slice_bound, shape0.
  replace (Z.to_nat 2) with 2 by lia.
  destruct (rows q) as [|p0 [|p1 l]]; try reflexivity.
  replace (Nat.min 2 (List.length (p0 :: p1 :: l))) with 2 by (simpl; lia).
  f_equal. apply firstn_all2. rewrite length_skipn. lia.
Qed.

Lemma slice_inner {A : Type} (q : ndarray A) :
  getslice (Some 1%Z) (Some (-1)%Z) q
  = mk_ndarray (shape1 q) (firstn (shape0 q - 2) (skipn 1 (rows q))).
Proof.
  unfold getslice.
  rewrite (@slice_bound_nonneg 0 1), (@slice_bound_neg (shape0 q) (-1)) by lia. unfold shape0.
  replace (Z.to_nat 1) with 1 by lia.
  destruct (rows q) as [|p0 l]; [reflexivity|].
  replace (Nat.min 1 (List.length (p0 :: l))) with 1 by (simpl; lia).
  f_equal. f_equal. simpl List.length. lia.
Qed.

Lemma slice_to_minus_two {A : Type} (q : ndarray A) :
  getslice None (Some (-2)%Z) q = mk_ndarray (shape1 q) (firstn (shape0 q - 2) (rows q)).
Proof.
  unfold getslice. rewrite (@slice_bound_neg (shape0 q) (-2)) by lia.
  unfold slice_bound, shape0.
  f_equal. simpl skipn. f_equal. lia.
Qed.

Section Derivative.
Context {F : Type} {SF : Scalar F}.

Lemma derivative_rows_slices (l : list (list F)) :
  zip_with (zip_with fsub)
    (zip_with (zip_with fadd)
       (map (map (fmul quarter)) (skipn 2 l))
       (map (map (fmul half)) (firstn (List.length l - 2) (skipn 1 l))))
    (map (map (fmul three_quarters)) (firstn (List.length l - 2) l))
  = derivative_rows l.
Proof.
  induction l as [|p0 t IH]; [reflexivity|].
  destruct t as [|p1 [|p2 rest]]; try reflexivity.
  simpl List.length in *.
  replace (S (S (S (List.length rest))) - 2) with (S (List.length rest)) by lia.
  replace (S (S (List.length rest)) - 2) with (List.length rest) in IH by lia.
  change (derivative_rows (p0 :: p1 :: p2 :: rest))
    with (slope_point p0 p1 p2 :: derivative_rows (p1 :: p2 :: rest)).
  rewrite <- IH. reflexivity.
Qed.

Lemma length_derivative_rows (l : list (list F)) :
  List.length (derivative_rows l) = List.length l - 2.
Proof.
  induction l as [|p0 t IH]; [reflexivity|].
  destruct t as [|p1 [|p2 rest]]; try reflexivity.
  change (derivative_rows (p0 :: p1 :: p2 :: rest))
    with (slope_point p0 p1 p2 :: derivative_rows (p1 :: p2 :: rest)).
  simpl List.length in *. rewrite IH. lia.
Qed.

Lemma shape0_zip_with (op : F -> F -> F) (a b : ndarray F) (m : nat) :
  shape0 (mk_ndarray m (zip_with (zip_with op) (rows a) (rows b)))
  = Nat.min (shape0 a) (shape0 b).
Proof. unfold shape0. cbn [rows]. apply length_zip_with. Qed.

Lemma shape0_scalar_mul (c : F) (a : ndarray F) : shape0 (scalar_mul c a) = shape0 a.
Proof. unfold shape0, scalar_mul. simpl. apply length_map. Qed.

(** The preprocessor never raises, and its rows are the slope points of
    each three consecutive rows. *)
Lemma average_of_slope_rows (q : ndarray F) :
  _average_of_slope q = Ok (mk_ndarray (shape1 q) (derivative_rows (rows q))).
Proof.
  unfold _average_of_slope, ndarray_add, ndarray_sub.
  rewrite slice_from_two, slice_inner, slice_to_minus_two.
  set (n := shape0 q).
  assert (H2 : shape0 (mk_ndarray (shape1 q) (skipn 2 (rows q))) = n - 2).
  { unfold shape0. cbn [rows]. now rewrite length_skipn. }
  assert (H1 : shape0 (mk_ndarray (shape1 q) (firstn (n - 2) (skipn 1 (rows q)))) = n - 2).
  { unfold shape0. cbn [rows]. rewrite length_firstn, length_skipn. fold (shape0 q). lia. }
  assert (H0 : shape0 (mk_ndarray (shape1 q) (firstn (n - 2) (rows q))) = n - 2).
  { unfold shape0. cbn [rows]. rewrite length_firstn. fold (shape0 q). lia. }
  rewrite elementwise_same_shape; cycle 1.
  { now rewrite !shape0_scalar_mul, H2, H1. }
  { reflexivity. }
  cbn [bind_result].
  rewrite elementwise_same_shape; cycle 1.
  { now rewrite shape0_zip_with, !shape0_scalar_mul, H2, H1, H0, Nat.min_id. }
  { reflexivity. }
  simpl. f_equal. f_equal. apply derivative_rows_slices.
Qed.
End Derivative.


Lemma nth_error_below {A : Type} (l : list A) (i : nat) :
  i < List.length l -> exists a, nth_error l i = Some a.
Proof.
  intros H. destruct (nth_error l i) as [a|] eqn:E; [now exists a|].
  apply nth_error_None in E. lia.
Qed.

Lemma wf_ndarray_rows {A : Type} (a : ndarray A) :
  wf_ndarray a = true <-> (forall r, In r (rows a) -> List.length r = shape1 a).
Proof.
  unfold wf_ndarray. rewrite forallb_forall. split; intros H r Hr.
  - now apply Nat.eqb_eq, H.
  - now apply Nat.eqb_eq, H.
Qed.

Section DerivativePoints.
Context {F : Type} {SF : Scalar F}.

Lemma nth_error_derivative_rows_S (l : list (list F)) (i : nat) (p0 p1 p2 : list F) :
  nth_error l i = Some p0 ->
  nth_error l (S i) = Some p1 ->
  nth_error l (S (S i)) = Some p2 ->
  nth_error (derivative_rows l) i = Some (slope_point p0 p1 p2).
Proof.
  revert i. induction l as [|r0 t IH]; intros i H0 H1 H2.
  - destruct i; discriminate.
  - destruct t as [|r1 [|r2 rest]].
    + destruct i; discriminate.
    + destruct i as [|[|i]]; discriminate.
    + change (derivative_rows (r0 :: r1 :: r2 :: rest))
        with (slope_point r0 r1 r2 :: derivative_rows (r1 :: r2 :: rest)).
      destruct i as [|i].
      * simpl in *. congruence.
      * simpl nth_error at 1. apply IH; assumption.
Qed.

Lemma nth_error_derivative_rows (l : list (list F)) (i : nat) (p0 p1 p2 : list F) :
  nth_error l i = Some p0 ->
  nth_error l (i + 1) = Some p1 ->
  nth_error l (i + 2) = Some p2 ->
  nth_error (derivative_rows l) i = Some (slope_point p0 p1 p2).
Proof.
  replace (i + 1) with (S i) by lia. replace (i + 2) with (S (S i)) by lia.
  apply nth_error_derivative_rows_S.
Qed.

Lemma length_slope_point (p0 p1 p2 : list F) (m : nat) :
  List.length p0 = m -> List.length p1 = m -> List.length p2 = m ->
  List.length (slope_point p0 p1 p2) = m.
Proof.
  intros H0 H1 H2. unfold slope_point.
  rewrite !length_zip_with, !length_map. lia.
Qed.

Lemma derivative_rows_width (l : list (list F)) (m : nat) :
  (forall r, In r l -> List.length r = m) ->
  forall r, In r (derivative_rows l) -> List.length r = m.
Proof.
  induction l as [|r0 t IH]; intros H r Hr; [destruct Hr|].
  destruct t as [|r1 [|r2 rest]]; [destruct Hr | destruct Hr |].
  change (derivative_rows (r0 :: r1 :: r2 :: rest))
    with (slope_point r0 r1 r2 :: derivative_rows (r1 :: r2 :: rest)) in Hr.
  destruct Hr as [<- | Hr].
  - apply length_slope_point; apply H; simpl; auto.
  - apply IH; [|exact Hr]. intros r' Hr'. apply H. now right.
Qed.

Lemma average_of_slope_wf (q d : ndarray F) :
  wf_ndarray q = true -> _average_of_slope q = Ok d -> wf_ndarray d = true.
Proof.
  intros Hq Hd. rewrite average_of_slope_rows in Hd. injection Hd as <-.
  apply wf_ndarray_rows. cbn [rows shape1].
  apply derivative_rows_width. now apply wf_ndarray_rows.
Qed.

Lemma getitem_rows (x : ndarray F) (i j : nat) (a : F) :
  getitem x i j = Some a ->
  exists p, nth_error (rows x) i = Some p /\ nth_error p j = Some a.
Proof.
  unfold getitem. destruct (nth_error (rows x) i) as [p|]; [|discriminate].
  intros H. now exists p.
Qed.

Lemma getitem_slope_point (p0 p1 p2 : list F) (j : nat) (a b c : F) :
  nth_error p0 j = Some a -> nth_error p1 j = Some b -> nth_error p2 j = Some c ->
  nth_error (slope_point p0 p1 p2) j
  = Some (fsub (fadd (fmul quarter c) (fmul half b)) (fmul three_quarters a)).
Proof.
  intros H0 H1 H2. unfold slope_point.
  apply nth_error_zip_with.
  - apply nth_error_zip_with; rewrite nth_error_map.
    + now rewrite H2.
    + now rewrite H1.
  - rewrite nth_error_map. now rewrite H0.
Qed.

(** C2: for a series [x] of length [n >= 3], the derivative has length
    [n - 2] and the same channel width, and its [i]-th point is
    [0.25 * x[i+2] + 0.5 * x[i+1] - 0.75 * x[i]] in every channel, for
    every [i] from 0 to [n - 3]. *)
Theorem average_of_slope_points (x : ndarray F) (n : nat) :
  wf_ndarray x = true ->
  shape0 x = n ->
  3 <= n ->
  exists d,
    _average_of_slope x = Ok d
    /\ shape0 d = n - 2
    /\ shape1 d = shape1 x
    /\ forall i j, i <= n - 3 -> j < shape1 x ->
         exists a b c,
           getitem x i j = Some a
           /\ getitem x (i + 1) j = Some b
           /\ getitem x (i + 2) j = Some c
           /\ getitem d i j
              = Some (fsub (fadd (fmul quarter c) (fmul half b)) (fmul three_quarters a)).
Proof.
  intros Hwf Hn H3.
  exists (mk_ndarray (shape1 x) (derivative_rows (rows x))).
  split; [apply average_of_slope_rows|].
  split; [unfold shape0 in *; cbn [rows]; rewrite length_derivative_rows; lia|].
  split; [reflexivity|].
  intros i j Hi Hj. unfold shape0 in Hn.
  destruct (@nth_error_below _ (rows x) i) as [p0 E0]; [lia|].
  destruct (@nth_error_below _ (rows x) (i + 1)) as [p1 E1]; [lia|].
  destruct (@nth_error_below _ (rows x) (i + 2)) as [p2 E2]; [lia|].
  pose proof (proj1 (wf_ndarray_rows x) Hwf) as Hw.
  destruct (@nth_error_below _ p0 j) as [a Ea];
    [rewrite (Hw p0 (nth_error_In _ _ E0)); lia|].
  destruct (@nth_error_below _ p1 j) as [b Eb];
    [rewrite (Hw p1 (nth_error_In _ _ E1)); lia|].
  destruct (@nth_error_below _ p2 j) as [c Ec];
    [rewrite (Hw p2 (nth_error_In _ _ E2)); lia|].
  exists a, b, c. unfold getitem. rewrite E0, E1, E2. cbn [rows].
  rewrite (nth_error_derivative_rows _ _ E0 E1 E2).
  repeat split; try assumption.
  now apply getitem_slope_point.
Qed.

(** C9: for an array of shape [(n, m)] the preprocessor raises nothing and
    returns an array of shape [(max(n - 2, 0), m)]; for [n < 3] this is
    the empty array of shape [(0, m)]. *)
Theorem average_of_slope_shape (q : ndarray F) (n m : nat) :
  wf_ndarray q = true ->
  shape q = (n, m) ->
  exists d,
    _average_of_slope q = Ok d
    /\ Z.of_nat (shape0 d) = Z.max (Z.of_nat n - 2) 0
    /\ shape1 d = m
    /\ wf_ndarray d = true
    /\ (n < 3 -> d = mk_ndarray m []).
Proof.
  intros Hwf Hs. unfold shape in Hs. injection Hs as Hn Hm.
  exists (mk_ndarray (shape1 q) (derivative_rows (rows q))).
  assert (Hd := average_of_slope_rows q).
  split; [exact Hd|].
  split; [unfold shape0 in *; cbn [rows]; rewrite length_derivative_rows; lia|].
  split; [exact Hm|].
  split; [eapply average_of_slope_wf; eassumption|].
  intros Hlt. rewrite Hm. f_equal. unfold shape0 in Hn.
  destruct (rows q) as [|r0 [|r1 [|r2 rest]]]; try reflexivity.
  simpl in Hn. lia.
Qed.
End DerivativePoints.

Section ExactArithmetic.
Context {F : Type} {SF : Scalar F} {EX : ExactScalar F}.

Add Ring scalar_Ring : scalar_ring.

Lemma slope_value_constant (a : F) :
  fsub (fadd (fmul quarter a) (fmul half a)) (fmul three_quarters a) = fzero.
Proof. rewrite <- quarter_plus_half. ring. Qed.

Lemma slope_point_constant (v : list F) :
  slope_point v v v = repeat fzero (List.length v).
Proof.
  unfold slope_point. induction v as [|a v IH]; [reflexivity|].
  cbn [map]. rewrite !zip_with_cons, IH, slope_value_constant. reflexivity.
Qed.

Lemma derivative_rows_constant (v : list F) (n : nat) :
  derivative_rows (repeat v n) = repeat (slope_point v v v) (n - 2).
Proof.
  induction n as [|n IH]; [reflexivity|].
  destruct n as [|[|k]]; try reflexivity.
  change (derivative_rows (repeat v (S (S (S k)))))
    with (slope_point v v v :: derivative_rows (repeat v (S (S k)))).
  rewrite IH. replace (S (S (S k)) - 2) with (S k) by lia.
  replace (S (S k) - 2) with k by lia. reflexivity.
Qed.

(** In exact arithmetic, the derivative of a constant series of length
    [n >= 3], every point of which is the vector [v], is the all-zero
    series of length [n - 2] and of the same width. *)
Lemma average_of_slope_constant_series_exact (x : ndarray F) (v : list F) (n : nat) :
  rows x = repeat v n ->
  shape1 x = List.length v ->
  3 <= n ->
  _average_of_slope x
  = Ok (mk_ndarray (shape1 x) (repeat (repeat fzero (shape1 x)) (n - 2))).
Proof.
  intros Hrows Hwidth _.
  rewrite average_of_slope_rows, Hrows, derivative_rows_constant.
  now rewrite slope_point_constant, Hwidth.
Qed.

Lemma slope_value_linear (a b x0 x1 x2 y0 y1 y2 : F) :
  fsub (fadd (fmul quarter (fadd (fmul a x2) (fmul b y2)))
             (fmul half (fadd (fmul a x1) (fmul b y1))))
       (fmul three_quarters (fadd (fmul a x0) (fmul b y0)))
  = fadd (fmul a (fsub (fadd (fmul quarter x2) (fmul half x1)) (fmul three_quarters x0)))
         (fmul b (fsub (fadd (fmul quarter y2) (fmul half y1)) (fmul three_quarters y0))).
Proof. ring. Qed.

Lemma slope_point_linear (a b : F) (p0 p1 p2 q0 q1 q2 : list F) :
  slope_point (combine_points a b p0 q0) (combine_points a b p1 q1)
    (combine_points a b p2 q2)
  = combine_points a b (slope_point p0 p1 p2) (slope_point q0 q1 q2).
Proof.
  unfold slope_point, combine_points.
  revert p1 p2 q0 q1 q2.
  induction p0 as [|x0 p0 IH]; intros p1 p2 q0 q1 q2; [now zip_nil|].
  destruct q0 as [|y0 q0]; [now zip_nil|].
  destruct p1 as [|x1 p1]; [now zip_nil|].
  destruct q1 as [|y1 q1]; [now zip_nil|].
  destruct p2 as [|x2 p2]; [now zip_nil|].
  destruct q2 as [|y2 q2]; [now zip_nil|].
  cbn [map]. rewrite !zip_with_cons. cbn [map]. rewrite !zip_with_cons.
  rewrite slope_value_linear. f_equal. apply IH.
Qed.

Lemma derivative_rows_linear (a b : F) (lx ly : list (list F)) :
  derivative_rows (zip_with (combine_points a b) lx ly)
  = zip_with (combine_points a b) (derivative_rows lx) (derivative_rows ly).
Proof.
  revert ly. induction lx as [|p0 t IH]; intros ly; [reflexivity|].
  destruct ly as [|q0 u].
  { rewrite zip_with_nil_r. change (derivative_rows (@nil (list F))) with (@nil (list F)).
    now rewrite zip_with_nil_r. }
  destruct t as [|p1 [|p2 rest]]; [reflexivity| |].
  - destruct u as [|q1 [|q2 rest']]; reflexivity.
  - destruct u as [|q1 [|q2 rest']]; [reflexivity | reflexivity |].
    specialize (IH (q1 :: q2 :: rest')).
    rewrite !zip_with_cons in *.
    change (derivative_rows (p0 :: p1 :: p2 :: rest))
      with (slope_point p0 p1 p2 :: derivative_rows (p1 :: p2 :: rest)).
    change (derivative_rows (q0 :: q1 :: q2 :: rest'))
      with (slope_point q0 q1 q2 :: derivative_rows (q1 :: q2 :: rest')).
    rewrite zip_with_cons, <- IH, <- slope_point_linear. reflexivity.
Qed.

Lemma zip_with_scaled_rows (a b : F) (lx ly : list (list F)) :
  zip_with (zip_with fadd) (map (map (fmul a)) lx) (map (map (fmul b)) ly)
  = zip_with (combine_points a b) lx ly.
Proof.
  revert ly. induction lx as [|p t IH]; intros [|q u]; try reflexivity.
  cbn [map]. rewrite !zip_with_cons, IH. reflexivity.
Qed.

(** In exact arithmetic the preprocessor is linear.  For series [x] and
    [y] of the same shape and scalars [a] and [b], the array
    [a * x + b * y] exists and its derivative is [a * dx + b * dy], where
    [dx] and [dy] are the derivatives of [x] and [y]. *)
Lemma average_of_slope_linear_exact (x y : ndarray F) (a b : F) :
  shape x = shape y ->
  exists s dx dy r,
    ndarray_add (scalar_mul a x) (scalar_mul b y) = Ok s
    /\ _average_of_slope x = Ok dx
    /\ _average_of_slope y = Ok dy
    /\ _average_of_slope s = Ok r
    /\ ndarray_add (scalar_mul a dx) (scalar_mul b dy) = Ok r.
Proof.
  intros Hs. unfold shape in Hs. injection Hs as H0 H1.
  unfold ndarray_add.
  rewrite !average_of_slope_rows.
  rewrite elementwise_same_shape by (rewrite ?shape0_scalar_mul; assumption).
  do 4 eexists. split; [reflexivity|]. split; [reflexivity|]. split; [reflexivity|].
  split; [apply average_of_slope_rows|].
  rewrite elementwise_same_shape; cycle 1.
  { rewrite !shape0_scalar_mul. unfold shape0 in *. cbn [rows].
    rewrite !length_derivative_rows. now rewrite H0. }
  { cbn [scalar_mul shape1]. exact H1. }
  cbn [scalar_mul shape1 rows]. f_equal. f_equal.
  rewrite !zip_with_scaled_rows. symmetry. apply derivative_rows_linear.
Qed.
End ExactArithmetic.

Section DerivativeArithmetic.
Context {F : Type} {SF : Scalar F}.

Lemma slope_point_same (v : list F) :
  slope_point v v v
  = map (fun c => fsub (fadd (fmul quarter c) (fmul half c)) (fmul three_quarters c)) v.
Proof.
  unfold slope_point. induction v as [|c v IH]; [reflexivity|].
  cbn [map]. rewrite !zip_with_cons, IH. reflexivity.
Qed.

Lemma map_eq_repeat (f : F -> F) (z : F) (v : list F) :
  map f v = repeat z (List.length v) <-> forall c, In c v -> f c = z.
Proof.
  induction v as [|c v IH]; cbn [map List.length repeat].
  - split; [intros _ c []|reflexivity].
  - split.
    + intros H. injection H as Hc Hv. intros c' [<-|Hin]; [exact Hc|].
      now apply IH.
    + intros H. f_equal; [apply H; now left|]. apply IH. intros c' Hin. apply H. now right.
Qed.


(** C6, as the code has it: the derivative of a constant series of length
    [n >= 3], every point of which is the vector [v], has length [n - 2]
    and the same width, and is constant: in every channel it holds
    [0.25 * c + 0.5 * c - 0.75 * c], computed in the arithmetic of the
    array, where [c] is the value of the channel.  It is the all-zero
    series exactly when that expression is zero for every channel, which
    it is in exact arithmetic. *)
Theorem average_of_slope_constant_series (x : ndarray F) (v : list F) (n : nat) :
  rows x = repeat v n ->
  shape1 x = List.length v ->
  3 <= n ->
  exists d,
    _average_of_slope x = Ok d
    /\ shape d = (n - 2, shape1 x)
    /\ (forall i j c, i < n - 2 -> nth_error v j = Some c ->
          getitem d i j
          = Some (fsub (fadd (fmul quarter c) (fmul half c)) (fmul three_quarters c)))
    /\ (d = mk_ndarray (shape1 x) (repeat (repeat fzero (shape1 x)) (n - 2))
        <-> forall c, In c v ->
              fsub (fadd (fmul quarter c) (fmul half c)) (fmul three_quarters c) = fzero)
    /\ (ExactScalar F ->
        d = mk_ndarray (shape1 x) (repeat (repeat fzero (shape1 x)) (n - 2))).
Proof.
  intros Hrows Hwidth Hn.
  exists (mk_ndarray (shape1 x) (repeat (slope_point v v v) (n - 2))).
  split; [now rewrite average_of_slope_rows, Hrows, derivative_rows_constant|].
  split; [unfold shape, shape0; cbn [rows shape1]; now rewrite repeat_length|].
  split.
  { intros i j c Hi Hj. unfold getitem. cbn [rows].
    rewrite nth_error_repeat by exact Hi. rewrite slope_point_same, nth_error_map, Hj.
    reflexivity. }
  split.
  { rewrite Hwidth, <- map_eq_repeat, <- slope_point_same.
    destruct (n - 2) as [|k] eqn:Hk; [lia|]. cbn [repeat]. split.
    - intros H. now injection H.
    - intros H. now rewrite H. }
  intros EX. now rewrite slope_point_constant, Hwidth.
Qed.
End DerivativeArithmetic.

(** ** Properties of the factory and of the closure it returns *)

Section StoreFacts.
Context {F : Type}.

Lemma read_stored (h : heap F) (l : loc) (a : ndarray F) :
  nth_error h l = Some a -> read l h = (Ok a, h).
Proof. intros H. unfold read. now rewrite H. Qed.

Lemma stored_below (h : heap F) (l : loc) :
  l < List.length h -> exists a, nth_error h l = Some a.
Proof. apply nth_error_below. Qed.

Lemma stored_extend (h fresh : heap F) (l : loc) (a : ndarray F) :
  nth_error h l = Some a -> nth_error (h ++ fresh) l = Some a.
Proof.
  intros H. rewrite nth_error_app1; [exact H|].
  apply nth_error_Some. congruence.
Qed.

Lemma stored_fresh (h fresh : heap F) (a : ndarray F) :
  nth_error (h ++ a :: fresh) (List.length h) = Some a.
Proof. rewrite nth_error_app2, Nat.sub_diag by lia. reflexivity. Qed.
End StoreFacts.

Section FactoryFacts.
Context {F : Type} {SF : Scalar F} {I : Infinity F} {E : Distances F}.

Lemma derivative_rows_short_series (q : ndarray F) :
  shape0 q < 3 -> derivative_rows (rows q) = [].
Proof.
  unfold shape0. destruct (rows q) as [|r0 [|r1 [|r2 rest]]]; try reflexivity.
  simpl. lia.
Qed.

Lemma shape_grid (lenX lenY : nat) (cell : nat -> nat -> F) :
  shape (grid lenX lenY cell) = (lenX, lenY).
Proof.
  unfold shape, shape0, grid. cbn [rows shape1]. now rewrite length_map, length_seq.
Qed.

Lemma build_mask_shape (lenX lenY : nat) (strategy : BoundingStrategy F) (mask : ndarray F) :
  build_mask lenX lenY strategy = Ok mask -> shape mask = (lenX, lenY).
Proof.
  unfold build_mask. destruct (_ || _); [discriminate|].
  destruct strategy as [|r|s].
  - intros H. injection H as <-. apply shape_grid.
  - destruct (_ <? _)%Z; [discriminate|]. intros H. injection H as <-. apply shape_grid.
  - destruct (fleb _ _); [discriminate|]. intros H. injection H as <-. apply shape_grid.
Qed.

(** What a successful resolution without an explicit mask has done. *)
Lemma resolve_bounding_matrix_built (x y : loc) (lb : lower_bounding_argument)
    (w : Z) (s : F) (h h1 : heap F) (l : loc) :
  resolve_bounding_matrix x y lb w s None h = (Ok l, h1) ->
  exists b ax ay mask,
    lower_bounding_of_argument lb = Ok b
    /\ nth_error h x = Some ax
    /\ nth_error h y = Some ay
    /\ build_mask (shape0 ax) (shape0 ay) (strategy_of b w s) = Ok mask
    /\ h1 = h ++ [mask]
    /\ l = List.length h.
Proof.
  unfold resolve_bounding_matrix, bind, lift, read, alloc.
  destruct (lower_bounding_of_argument lb) as [b|e]; [|discriminate].
  destruct (nth_error h x) as [ax|]; [|discriminate].
  destruct (nth_error h y) as [ay|]; [|discriminate].
  destruct (build_mask _ _ _) as [mask|e] eqn:Hm; [|discriminate].
  intros H. injection H as <- <-.
  exists b, ax, ay, mask. repeat split; assumption || reflexivity.
Qed.

(** What a successful run of the factory has done: the resolution of the
    mask, the contract check, the resolution of the pointwise distance,
    in this order, and nothing else. *)
Lemma distance_factory_run (x y : loc) (a : ddtw_arguments) (h h1 : heap F)
    (c : ddtw_closure) :
  _distance_factory x y a h = (Ok c, h1) ->
  let derivative := default average_of_slope_callable (compute_derivative a) in
  exists pointwise,
    resolve_bounding_matrix x y
      (default (LowerBounding_enum NO_BOUNDING) (lower_bounding a))
      (default 2%Z (window a))
      (default (fadd fone fone) (itakura_max_slope a))
      (bounding_matrix a) h = (Ok (_bounding_matrix c), h1)
    /\ is_no_python_compiled_callable derivative = true
    /\ distance_factory x y
         (default squared_distance_factory (custom_distance a)) (kwargs a) h1
       = (Ok pointwise, h1)
    /\ c = mk_ddtw_closure derivative pointwise (_bounding_matrix c).
Proof.
  unfold _distance_factory. unfold bind at 1.
  destruct (resolve_bounding_matrix _ _ _ _ _ _ h) as [[l|e] h0] eqn:Hr; [|discriminate].
  destruct (is_no_python_compiled_callable _) eqn:Hc; cbn [negb].
  - unfold bind at 1.
    destruct (distance_factory _ _ _ _ h0) as [[d|e] h2] eqn:Hd; [|discriminate].
    assert (h2 = h0) as ->.
    { revert Hd. unfold distance_factory, bind, read, lift.
      destruct (nth_error h0 x); [|now intros [= _ <-]].
      destruct (nth_error h0 y); [|now intros [= _ <-]].
      now intros [= _ <-]. }
    unfold ret. intros H. injection H as <- <-. cbn.
    exists d. repeat split; assumption || reflexivity.
  - unfold bind, getattr_name, raise, ret.
    destruct (dunder_name _); discriminate.
Qed.

(** A call of the closure when the preprocessor is a function [g] of
    values: both series are read and preprocessed, the results are stored
    in new arrays, and the DP core receives them with the closed-over
    mask and pointwise distance. *)
Lemma numba_ddtw_distance_run (g : ndarray F -> result (ndarray F)) (c : ddtw_closure)
    (_x _y : loc) (h : heap F) (ax ay mask : ndarray F) :
  (forall q h0, call_derivative (closure_compute_derivative c) q h0
                = (do a <- read q ;; do d <- lift (g a) ;; alloc d) h0) ->
  nth_error h _x = Some ax ->
  nth_error h _y = Some ay ->
  nth_error h (_bounding_matrix c) = Some mask ->
  numba_ddtw_distance c _x _y h
  = match g ax with
    | Raise e => (Raise e, h)
    | Ok dx =>
        match g ay with
        | Raise e => (Raise e, h ++ [dx])
        | Ok dy => (DPRecurrence dx dy mask (_custom_distance c), h ++ [dx; dy])
        end
    end.
Proof.
  intros Hg Hx Hy Hm. unfold numba_ddtw_distance.
  unfold bind at 1. rewrite Hg. unfold bind at 1. rewrite (read_stored _ _ Hx).
  unfold bind at 1, lift at 1. destruct (g ax) as [dx|e]; [|reflexivity].
  unfold alloc at 1. unfold bind at 1. rewrite Hg.
  unfold bind at 1. rewrite (read_stored _ _ (@stored_extend _ h [dx] _ _ Hy)).
  unfold bind at 1, lift at 1. destruct (g ay) as [dy|e]; [|reflexivity].
  unfold alloc at 1. unfold _dtw_numba_distance.
  rewrite <- app_assoc. cbn [app].
  unfold bind at 1. rewrite (read_stored _ _ (stored_fresh h [dy] dx)).
  unfold bind at 1. rewrite length_app. cbn [List.length].
  assert (Hdy : nth_error (h ++ [dx; dy]) (List.length h + 1) = Some dy).
  { rewrite nth_error_app2 by lia. now replace (List.length h + 1 - List.length h) with 1 by lia. }
  rewrite (read_stored _ _ Hdy).
  unfold bind at 1. rewrite (read_stored _ _ (@stored_extend _ h [dx; dy] _ _ Hm)).
  reflexivity.
Qed.

Lemma getitem_grid (lenX lenY : nat) (cell : nat -> nat -> F) (i j : nat) :
  i < lenX -> j < lenY -> getitem (grid lenX lenY cell) i j = Some (cell i j).
Proof.
  intros Hi Hj. unfold getitem, grid. cbn [rows].
  rewrite nth_error_map, nth_error_seq.
  apply Nat.ltb_lt in Hi. rewrite Hi. cbn [option_map].
  rewrite nth_error_map, nth_error_seq.
  apply Nat.ltb_lt in Hj. rewrite Hj. reflexivity.
Qed.

Lemma distance_factory_stored (x y : loc) (m : Metric) (k : Kwargs) (h : heap F)
    (ax ay : ndarray F) :
  nth_error h x = Some ax -> nth_error h y = Some ay ->
  distance_factory x y m k h = (resolve_metric ax ay m k, h).
Proof.
  intros Hx Hy. unfold distance_factory, bind.
  rewrite (read_stored _ _ Hx), (read_stored _ _ Hy). reflexivity.
Qed.

Lemma average_of_slope_callable_pure : pure_preprocessor (@average_of_slope_callable F SF).
Proof. exists _average_of_slope. reflexivity. Qed.
End FactoryFacts.

Section FactoryTheorems.
Context {F : Type} {SF : Scalar F} {I : Infinity F} {E : Distances F}.

(** C5: the function the factory returns is the composition the
    specification describes.  The mask and the pointwise distance are
    resolved once, by the run of the factory; every call of the returned
    function applies the resolved preprocessor to both series and then
    invokes the DP core with that mask and that distance. *)
Theorem factory_closure_refines_spec_composition (x y : loc) (a : ddtw_arguments)
    (h h1 : heap F) (c : ddtw_closure) :
  _distance_factory x y a h = (Ok c, h1) ->
  exists mask pointwise,
    resolve_bounding_matrix x y
      (default (LowerBounding_enum NO_BOUNDING) (lower_bounding a))
      (default 2%Z (window a))
      (default (fadd fone fone) (itakura_max_slope a))
      (bounding_matrix a) h = (Ok mask, h1)
    /\ distance_factory x y
         (default squared_distance_factory (custom_distance a)) (kwargs a) h1
       = (Ok pointwise, h1)
    /\ forall _x _y : loc,
         numba_ddtw_distance c _x _y
         = spec_specialized_distance
             (call_derivative (default average_of_slope_callable (compute_derivative a)))
             mask pointwise _x _y.
Proof.
  intros Hf. destruct (distance_factory_run _ _ _ _ Hf) as (d & Hr & _ & Hd & Hc).
  exists (_bounding_matrix c), d. repeat split; try assumption.
  intros _x _y. rewrite Hc. reflexivity.
Qed.

(** C1, as the code has it: without an explicit bounding matrix, the mask
    the closure hands to the DP core is built by the factory from the raw
    series [x] and [y] it is given, before any derivative is taken, and
    has shape [(lenX, lenY)]; with the default preprocessor, the series
    the DP core receives with it have lengths [lenX - 2] and
    [lenY - 2]. *)
Theorem ddtw_mask_has_raw_series_shape (x y : loc) (a : ddtw_arguments)
    (h h1 : heap F) (c : ddtw_closure) :
  bounding_matrix a = None ->
  _distance_factory x y a h = (Ok c, h1) ->
  exists ax ay mask,
    nth_error h x = Some ax
    /\ nth_error h y = Some ay
    /\ h1 = h ++ [mask]
    /\ nth_error h1 (_bounding_matrix c) = Some mask
    /\ shape mask = (shape0 ax, shape0 ay)
    /\ (compute_derivative a = None ->
        exists dx dy,
          numba_ddtw_distance c x y h1
          = (DPRecurrence dx dy mask (_custom_distance c), h1 ++ [dx; dy])
          /\ shape0 dx = shape0 ax - 2
          /\ shape0 dy = shape0 ay - 2).
Proof.
  intros Hbm Hf. destruct (distance_factory_run _ _ _ _ Hf) as (d & Hr & _ & _ & Hc).
  rewrite Hbm in Hr.
  destruct (resolve_bounding_matrix_built _ _ _ _ _ _ Hr)
    as (b & ax & ay & mask & _ & Hx & Hy & Hm & -> & Hl).
  assert (Hmask : nth_error (h ++ [mask]) (_bounding_matrix c) = Some mask).
  { rewrite Hl. apply stored_fresh. }
  exists ax, ay, mask. repeat split; try assumption.
  - exact (build_mask_shape _ _ _ Hm).
  - intros Hcd.
    exists (mk_ndarray (shape1 ax) (derivative_rows (rows ax))),
           (mk_ndarray (shape1 ay) (derivative_rows (rows ay))).
    split.
    + rewrite numba_ddtw_distance_run
        with (g := _average_of_slope) (ax := ax) (ay := ay) (mask := mask).
      * now rewrite !average_of_slope_rows.
      * rewrite Hc, Hcd. reflexivity.
      * now apply stored_extend.
      * now apply stored_extend.
      * exact Hmask.
    + unfold shape0. cbn [rows]. now rewrite !length_derivative_rows.
Qed.

(** C3, as the code has it: a series of fewer than three points, be it the
    first or the second argument of the call, passes through the
    derivative preprocessing without any error; its derivative is the
    empty series of the same width, and the closure hands both
    derivatives to the DP core, whose outcome is the outcome of the
    call. *)
Theorem ddtw_short_series_reaches_dp_core (c : ddtw_closure) (_x _y : loc)
    (h : heap F) (ax ay mask : ndarray F) :
  closure_compute_derivative c = average_of_slope_callable ->
  nth_error h _x = Some ax ->
  nth_error h _y = Some ay ->
  nth_error h (_bounding_matrix c) = Some mask ->
  shape0 ax < 3 \/ shape0 ay < 3 ->
  exists dx dy,
    _average_of_slope ax = Ok dx
    /\ _average_of_slope ay = Ok dy
    /\ (shape0 ax < 3 -> dx = mk_ndarray (shape1 ax) [])
    /\ (shape0 ay < 3 -> dy = mk_ndarray (shape1 ay) [])
    /\ numba_ddtw_distance c _x _y h
       = (DPRecurrence dx dy mask (_custom_distance c), h ++ [dx; dy]).
Proof.
  intros Hcd Hx Hy Hm _.
  assert (Hempty : forall q : ndarray F, shape0 q < 3 ->
            mk_ndarray (shape1 q) (derivative_rows (rows q)) = mk_ndarray (shape1 q) []).
  { intros q Hlt. f_equal. apply derivative_rows_short_series. exact Hlt. }
  exists (mk_ndarray (shape1 ax) (derivative_rows (rows ax))),
         (mk_ndarray (shape1 ay) (derivative_rows (rows ay))).
  split; [apply average_of_slope_rows|]. split; [apply average_of_slope_rows|].
  split; [apply Hempty|]. split; [apply Hempty|].
  rewrite numba_ddtw_distance_run
    with (g := _average_of_slope) (ax := ax) (ay := ay) (mask := mask);
    try assumption.
  - now rewrite !average_of_slope_rows.
  - rewrite Hcd. reflexivity.
Qed.

(** C4, on the code: a derivative callable that fails the contract check
    and has a name makes the factory fail, once the mask is resolved and
    before any distance is resolved or computed, with the interpreter's
    [TypeError] for raising a [str]; neither the documented [ValueError]
    nor an error of the preprocessor's own is raised. *)
Theorem factory_uncompiled_derivative_raises_TypeError (x y : loc) (a : ddtw_arguments)
    (h h1 : heap F) (mask : loc) (f : DerivativeCallable F) (name : string) :
  compute_derivative a = Some f ->
  is_no_python_compiled_callable f = false ->
  dunder_name f = Some name ->
  resolve_bounding_matrix x y
    (default (LowerBounding_enum NO_BOUNDING) (lower_bounding a))
    (default 2%Z (window a))
    (default (fadd fone fone) (itakura_max_slope a))
    (bounding_matrix a) h = (Ok mask, h1) ->
  _distance_factory x y a h = (Raise PyTypeError, h1).
Proof.
  intros Hcd Hc Hn Hr. unfold _distance_factory. unfold bind at 1.
  rewrite Hr, Hcd. cbn [default]. rewrite Hc. cbn [negb].
  unfold bind, getattr_name. rewrite Hn. reflexivity.
Qed.

(** C7: on two stored series, with a derivative callable that passes the
    contract check and a pointwise distance that resolves, the factory
    returns, and the mask of its closure is resolved as follows.  An
    explicit bounding matrix is the mask, and nothing is built, whatever
    the strategy, window and slope are, valid or not.  Without one, for
    series of at least one point and a strategy whose parameter the
    builder accepts, the mask is a new array of shape [(lenX, lenY)]
    built from the strategy given, with the window and slope given or
    their defaults 2 and 2.0: every cell is 0 under no bounding, and is 0
    inside the band of the strategy and +infinity outside it under the
    two banded strategies.  When no strategy is given every cell
    is 0. *)
Theorem factory_mask_resolution (x y : loc) (a : ddtw_arguments) (h : heap F)
    (ax ay : ndarray F) (d : DistanceCallable) :
  nth_error h x = Some ax ->
  nth_error h y = Some ay ->
  is_no_python_compiled_callable
    (default average_of_slope_callable (compute_derivative a)) = true ->
  resolve_metric ax ay (default squared_distance_factory (custom_distance a)) (kwargs a)
  = Ok d ->
  let derivative := default average_of_slope_callable (compute_derivative a) in
  let window := default 2%Z (window a) in
  let itakura_max_slope := default (fadd fone fone) (itakura_max_slope a) in
  (forall given, bounding_matrix a = Some given ->
     _distance_factory x y a h = (Ok (mk_ddtw_closure derivative d given), h)
     /\ forall lb w s,
          _distance_factory x y
            (mk_ddtw_arguments lb w s (custom_distance a) (Some given)
               (compute_derivative a) (kwargs a)) h
          = (Ok (mk_ddtw_closure derivative d given), h))
  /\ (bounding_matrix a = None ->
      1 <= shape0 ax -> 1 <= shape0 ay ->
      forall b,
        lower_bounding_of_argument
          (default (LowerBounding_enum NO_BOUNDING) (lower_bounding a)) = Ok b ->
        match b with
        | NO_BOUNDING => True
        | SAKOE_CHIBA => (0 <= window)%Z
        | ITAKURA_PARALLELOGRAM => fleb itakura_max_slope fzero = false
        end ->
        exists mask,
          _distance_factory x y a h
          = (Ok (mk_ddtw_closure derivative d (List.length h)), h ++ [mask])
          /\ shape mask = (shape0 ax, shape0 ay)
          /\ forall i j, i < shape0 ax -> j < shape0 ay ->
               getitem mask i j
               = Some match b with
                      | NO_BOUNDING => fzero
                      | SAKOE_CHIBA =>
                          if in_band (SakoeChiba window) (shape0 ax) (shape0 ay) i j
                          then fzero else finf
                      | ITAKURA_PARALLELOGRAM =>
                          if in_band (ItakuraParallelogram itakura_max_slope)
                               (shape0 ax) (shape0 ay) i j
                          then fzero else finf
                      end)
  /\ (bounding_matrix a = None ->
      lower_bounding a = None ->
      1 <= shape0 ax -> 1 <= shape0 ay ->
      exists mask,
        _distance_factory x y a h
        = (Ok (mk_ddtw_closure derivative d (List.length h)), h ++ [mask])
        /\ shape mask = (shape0 ax, shape0 ay)
        /\ forall i j, i < shape0 ax -> j < shape0 ay -> getitem mask i j = Some fzero).
Proof.
  intros Hx Hy Hc Hd derivative w s.
  assert (Hgiven : forall given lb' w' s',
            _distance_factory x y
              (mk_ddtw_arguments lb' w' s' (custom_distance a) (Some given)
                 (compute_derivative a) (kwargs a)) h
            = (Ok (mk_ddtw_closure derivative d given), h)).
  { intros given lb' w' s'. unfold _distance_factory.
    cbn [bounding_matrix compute_derivative custom_distance kwargs resolve_bounding_matrix].
    unfold bind at 1. unfold ret at 1. rewrite Hc. cbn [negb].
    unfold bind at 1.
    rewrite distance_factory_stored with (ax := ax) (ay := ay) by assumption.
    rewrite Hd. reflexivity. }
  assert (Hbuilt : forall b,
            bounding_matrix a = None ->
            lower_bounding_of_argument
              (default (LowerBounding_enum NO_BOUNDING) (lower_bounding a)) = Ok b ->
            forall mask, build_mask (shape0 ax) (shape0 ay) (strategy_of b w s) = Ok mask ->
            _distance_factory x y a h
            = (Ok (mk_ddtw_closure derivative d (List.length h)), h ++ [mask])).
  { intros b Hbm Hb mask Hm. unfold _distance_factory. rewrite Hbm.
    unfold resolve_bounding_matrix. unfold bind at 1. unfold bind at 1.
    unfold lift at 1. rewrite Hb.
    unfold bind at 1. rewrite (read_stored _ _ Hx).
    unfold bind at 1. rewrite (read_stored _ _ Hy).
    unfold bind at 1. unfold lift at 1. fold w s. rewrite Hm. unfold alloc.
    rewrite Hc. cbn [negb]. unfold bind at 1.
    rewrite distance_factory_stored with (ax := ax) (ay := ay)
      by (now apply stored_extend).
    rewrite Hd. reflexivity. }
  split; [|split].
  - intros given Hbm. split; [|apply Hgiven].
    specialize (Hgiven given (lower_bounding a) (window a) (itakura_max_slope a)).
    rewrite <- Hbm in Hgiven. destruct a. exact Hgiven.
  - intros Hbm HlenX HlenY b Hb Hvalid.
    assert (Hsmall : (shape0 ax <? 1) || (shape0 ay <? 1) = false).
    { apply orb_false_iff. split; apply Nat.ltb_ge; assumption. }
    destruct b; cbn [strategy_of] in Hbuilt.
    + eexists. split; [apply (Hbuilt NO_BOUNDING Hbm Hb)|].
      * unfold build_mask. rewrite Hsmall. reflexivity.
      * split; [apply shape_grid|]. intros i j Hi Hj.
        rewrite getitem_grid by assumption. reflexivity.
    + eexists. split; [apply (Hbuilt SAKOE_CHIBA Hbm Hb)|].
      * unfold build_mask. rewrite Hsmall. cbn [strategy_of].
        apply Z.ltb_ge in Hvalid. rewrite Hvalid. reflexivity.
      * split; [apply shape_grid|]. intros i j Hi Hj.
        rewrite getitem_grid by assumption. reflexivity.
    + eexists. split; [apply (Hbuilt ITAKURA_PARALLELOGRAM Hbm Hb)|].
      * unfold build_mask. rewrite Hsmall. cbn [strategy_of].
        rewrite Hvalid. reflexivity.
      * split; [apply shape_grid|]. intros i j Hi Hj.
        rewrite getitem_grid by assumption. reflexivity.
  - intros Hbm Hlb HlenX HlenY.
    assert (Hsmall : (shape0 ax <? 1) || (shape0 ay <? 1) = false).
    { apply orb_false_iff. split; apply Nat.ltb_ge; assumption. }
    eexists. split; [apply (Hbuilt NO_BOUNDING Hbm)|].
    + rewrite Hlb. reflexivity.
    + unfold build_mask. rewrite Hsmall. reflexivity.
    + split; [apply shape_grid|]. intros i j Hi Hj.
        rewrite getitem_grid by assumption. reflexivity.
Qed.
(** C8, as the code has it: when the preprocessor of the configuration is
    a function of values that returns a new array, as the default one is,
    a call of the returned function only adds arrays to the store, so
    that every array present before the call, the closed-over mask among
    them, is unchanged; and a second call on the same series returns the
    same result. *)
Theorem ddtw_closure_pure_with_pure_preprocessor (x y : loc) (a : ddtw_arguments)
    (h0 hf h h1 : heap F) (c : ddtw_closure) (_x _y : loc) (r : result F) :
  _distance_factory x y a h0 = (Ok c, hf) ->
  pure_preprocessor (default average_of_slope_callable (compute_derivative a)) ->
  _x < List.length h ->
  _y < List.length h ->
  _bounding_matrix c < List.length h ->
  numba_ddtw_distance c _x _y h = (r, h1) ->
  (exists fresh, h1 = h ++ fresh)
  /\ (forall l v, nth_error h l = Some v -> nth_error h1 l = Some v)
  /\ (forall r2 h2, numba_ddtw_distance c _x _y h1 = (r2, h2) -> r2 = r).
Proof.
  intros Hf [g Hg] Hx Hy Hm Hrun.
  destruct (distance_factory_run _ _ _ _ Hf) as (d & _ & _ & _ & Hc).
  assert (Hg' : forall q h2, call_derivative (closure_compute_derivative c) q h2
                = (do v <- read q ;; do dv <- lift (g v) ;; alloc dv) h2).
  { rewrite Hc. exact Hg. }
  destruct (stored_below h Hx) as [ax Hax].
  destruct (stored_below h Hy) as [ay Hay].
  destruct (stored_below h Hm) as [mask Hmask].
  rewrite numba_ddtw_distance_run
    with (g := g) (ax := ax) (ay := ay) (mask := mask) in Hrun by assumption.
  assert (Hext : exists fresh, h1 = h ++ fresh).
  { destruct (g ax) as [dx|e]; [destruct (g ay) as [dy|e]|]; injection Hrun as _ <-.
    - now exists [dx; dy].
    - now exists [dx].
    - exists []. now rewrite app_nil_r. }
  split; [exact Hext|]. destruct Hext as [fresh ->].
  split; [intros l v Hl; now apply stored_extend|].
  intros r2 h2.
  rewrite numba_ddtw_distance_run
    with (g := g) (ax := ax) (ay := ay) (mask := mask)
    by (assumption || now apply stored_extend).
  destruct (g ax) as [dx|e]; [destruct (g ay) as [dy|e]|];
    injection Hrun as <- _; now intros [= <- _].
Qed.
End FactoryTheorems.

(** ** Instances of the statements *)

Example average_of_slope_series_x : _average_of_slope series_x = Ok derivative_x.
Proof. vm_compute. reflexivity. Qed.

Example average_of_slope_series_y : _average_of_slope series_y = Ok derivative_y.
Proof. vm_compute. reflexivity. Qed.

Example ddtw_of_two_series :
  numba_ddtw_distance default_closure 0 1 after_factory = (Ok 0.3125%float, after_call).
Proof. vm_compute. reflexivity. Qed.

#[export] Instance Qc_ExactScalar : ExactScalar Qc.
Proof.
  split.
  - exact Qcrt.
  - apply Qc_is_canon. reflexivity.
Qed.

Lemma average_of_slope_points_witness :
  wf_ndarray series_x = true
  /\ shape0 series_x = 4
  /\ 3 <= 4
  /\ exists d,
       _average_of_slope series_x = Ok d
       /\ shape0 d = 4 - 2
       /\ shape1 d = shape1 series_x
       /\ forall i j, i <= 4 - 3 -> j < shape1 series_x ->
            exists a b c,
              getitem series_x i j = Some a
              /\ getitem series_x (i + 1) j = Some b
              /\ getitem series_x (i + 2) j = Some c
              /\ getitem d i j
                 = Some (fsub (fadd (fmul quarter c) (fmul half b)) (fmul three_quarters a)).
Proof.
  split; [reflexivity|]. split; [reflexivity|]. split; [lia|].
  apply (@average_of_slope_points float float_Scalar series_x 4); [reflexivity | reflexivity | lia].
Defined.

Lemma average_of_slope_shape_witness :
  wf_ndarray short_series = true
  /\ shape short_series = (2, 1)
  /\ exists d,
       _average_of_slope short_series = Ok d
       /\ Z.of_nat (shape0 d) = Z.max (Z.of_nat 2 - 2) 0
       /\ shape1 d = 1
       /\ wf_ndarray d = true
       /\ (2 < 3 -> d = mk_ndarray 1 []).
Proof.
  split; [reflexivity|]. split; [reflexivity|].
  apply (@average_of_slope_shape float float_Scalar short_series 2 1); reflexivity.
Defined.

Example average_of_slope_constant_series_exact_rational :
  rows constant_series = repeat [rational 5; rational (-3)] 3
  /\ shape1 constant_series = List.length [rational 5; rational (-3)]
  /\ 3 <= 3
  /\ _average_of_slope constant_series
     = Ok (mk_ndarray (shape1 constant_series)
             (repeat (repeat fzero (shape1 constant_series)) (3 - 2))).
Proof.
  split; [reflexivity|]. split; [reflexivity|]. split; [lia|].
  apply (@average_of_slope_constant_series_exact Qc Qc_Scalar Qc_ExactScalar constant_series
           [rational 5; rational (-3)] 3); [reflexivity | reflexivity | lia].
Qed.

Example average_of_slope_linear_exact_rational :
  shape constant_series = shape rising_series
  /\ exists s dx dy r,
       ndarray_add (scalar_mul (rational 2) constant_series)
         (scalar_mul (rational 3) rising_series) = Ok s
       /\ _average_of_slope constant_series = Ok dx
       /\ _average_of_slope rising_series = Ok dy
       /\ _average_of_slope s = Ok r
       /\ ndarray_add (scalar_mul (rational 2) dx) (scalar_mul (rational 3) dy) = Ok r.
Proof.
  split; [reflexivity|].
  apply (@average_of_slope_linear_exact Qc Qc_Scalar Qc_ExactScalar constant_series
           rising_series (rational 2) (rational 3)); reflexivity.
Qed.

Lemma average_of_slope_constant_series_witness :
  rows constant_float_series = repeat [1%float; 2%float] 3
  /\ shape1 constant_float_series = List.length [1%float; 2%float]
  /\ 3 <= 3
  /\ exists d,
       _average_of_slope constant_float_series = Ok d
       /\ shape d = (3 - 2, shape1 constant_float_series)
       /\ (forall i j c, i < 3 - 2 -> nth_error [1%float; 2%float] j = Some c ->
             getitem d i j
             = Some (fsub (fadd (fmul quarter c) (fmul half c)) (fmul three_quarters c)))
       /\ (d = mk_ndarray (shape1 constant_float_series)
                 (repeat (repeat fzero (shape1 constant_float_series)) (3 - 2))
           <-> forall c, In c [1%float; 2%float] ->
                 fsub (fadd (fmul quarter c) (fmul half c)) (fmul three_quarters c) = fzero)
       /\ (ExactScalar float ->
           d = mk_ndarray (shape1 constant_float_series)
                 (repeat (repeat fzero (shape1 constant_float_series)) (3 - 2))).
Proof.
  split; [reflexivity|]. split; [reflexivity|]. split; [lia|].
  apply (@average_of_slope_constant_series float float_Scalar constant_float_series
           [1%float; 2%float] 3); [reflexivity | reflexivity | lia].
Defined.


Lemma float_neq (a b : float) :
  PrimFloat.eqb a b = false -> PrimFloat.eqb b b = true -> a <> b.
Proof. intros Hab Hbb Heq. rewrite Heq in Hab. congruence. Qed.

(** Two arrays whose entries (0, 0) differ as binary64 numbers are not the
    same array. *)
Lemma first_entry_neq (a b : ndarray float) (u v : float) :
  getitem a 0 0 = Some u -> getitem b 0 0 = Some v ->
  PrimFloat.eqb u v = false -> PrimFloat.eqb v v = true -> a <> b.
Proof.
  intros Ha Hb Huv Hvv Heq. rewrite Heq, Hb in Ha. injection Ha as Ha.
  symmetry in Ha. revert Ha. now apply float_neq.
Qed.

(** C6, refuted as stated: in binary64 the derivative of the constant
    series of value +infinity is NaN in every point, and the derivative
    of the constant series of the least positive number is the opposite
    of that number in every point; neither is the all-zero series. *)
Lemma average_of_slope_constant_series_not_zero :
  rows infinite_series = repeat [infinity] 3
  /\ shape1 infinite_series = List.length [infinity]
  /\ _average_of_slope infinite_series = Ok (mk_ndarray 1 [[nan]])
  /\ _average_of_slope infinite_series
     <> Ok (mk_ndarray (shape1 infinite_series)
              (repeat (repeat fzero (shape1 infinite_series)) (3 - 2)))
  /\ rows tiny_series = repeat [least_positive] 3
  /\ shape1 tiny_series = List.length [least_positive]
  /\ _average_of_slope tiny_series = Ok (mk_ndarray 1 [[(- least_positive)%float]])
  /\ _average_of_slope tiny_series
     <> Ok (mk_ndarray (shape1 tiny_series)
              (repeat (repeat fzero (shape1 tiny_series)) (3 - 2))).
Proof.
  assert (Hinf : _average_of_slope infinite_series = Ok (mk_ndarray 1 [[nan]]))
    by (vm_compute; reflexivity).
  assert (Htiny : _average_of_slope tiny_series
                  = Ok (mk_ndarray 1 [[(- least_positive)%float]]))
    by (vm_compute; reflexivity).
  split; [reflexivity|]. split; [reflexivity|]. split; [exact Hinf|]. split.
  { rewrite Hinf. intros H.
    apply (f_equal (fun r => match r with Ok a => a | Raise _ => mk_ndarray 0 [] end)) in H.
    revert H. apply first_entry_neq with (u := nan) (v := 0%float); reflexivity. }
  split; [reflexivity|]. split; [reflexivity|]. split; [exact Htiny|].
  rewrite Htiny. intros H.
  apply (f_equal (fun r => match r with Ok a => a | Raise _ => mk_ndarray 0 [] end)) in H.
  revert H.
  apply first_entry_neq with (u := (- least_positive)%float) (v := 0%float); reflexivity.
Qed.


(** C1, refuted as stated: for two series of four points and the default
    configuration, the derivatives have two points each, and the mask the
    closure holds has shape (4, 4), not (2, 2). *)
Lemma ddtw_mask_not_post_derivative_shape :
  exists c h1 mask dx dy,
    _distance_factory 0 1 no_arguments two_series = (Ok c, h1)
    /\ nth_error h1 (_bounding_matrix c) = Some mask
    /\ _average_of_slope series_x = Ok dx
    /\ _average_of_slope series_y = Ok dy
    /\ shape mask = (4, 4)
    /\ (shape0 dx, shape0 dy) = (4 - 2, 4 - 2)
    /\ shape mask <> (shape0 dx, shape0 dy).
Proof.
  exists default_closure, after_factory, open_mask, derivative_x, derivative_y.
  repeat split; try reflexivity. discriminate.
Qed.

Lemma ddtw_mask_has_raw_series_shape_witness :
  bounding_matrix no_arguments = None
  /\ _distance_factory 0 1 no_arguments two_series = (Ok default_closure, after_factory)
  /\ exists ax ay mask,
       nth_error two_series 0 = Some ax
       /\ nth_error two_series 1 = Some ay
       /\ after_factory = two_series ++ [mask]
       /\ nth_error after_factory (_bounding_matrix default_closure) = Some mask
       /\ shape mask = (shape0 ax, shape0 ay)
       /\ (compute_derivative no_arguments = None ->
           exists dx dy,
             numba_ddtw_distance default_closure 0 1 after_factory
             = (DPRecurrence dx dy mask (_custom_distance default_closure),
                after_factory ++ [dx; dy])
             /\ shape0 dx = shape0 ax - 2
             /\ shape0 dy = shape0 ay - 2).
Proof.
  split; [reflexivity|]. split; [reflexivity|].
  apply ddtw_mask_has_raw_series_shape with (a := no_arguments); reflexivity.
Defined.

(** C3, refuted as stated: the derivative of a series of two points is the
    empty series; no error is raised, and the callable returns the location
    of the new, empty array. *)
Lemma average_of_slope_short_series_no_error :
  shape0 short_series = 2
  /\ _average_of_slope short_series = Ok (mk_ndarray 1 [])
  /\ _average_of_slope short_series <> Raise InsufficientLengthError
  /\ call_derivative average_of_slope_callable 0 [short_series]
     = (Ok 1, [short_series; mk_ndarray 1 []]).
Proof.
  repeat split; try reflexivity. discriminate.
Qed.

Lemma ddtw_short_series_reaches_dp_core_witness :
  closure_compute_derivative default_closure = average_of_slope_callable
  /\ nth_error [series_y; short_series; open_mask] 0 = Some series_y
  /\ nth_error [series_y; short_series; open_mask] 1 = Some short_series
  /\ nth_error [series_y; short_series; open_mask] (_bounding_matrix default_closure)
     = Some open_mask
  /\ (shape0 series_y < 3 \/ shape0 short_series < 3)
  /\ exists dx dy,
       _average_of_slope series_y = Ok dx
       /\ _average_of_slope short_series = Ok dy
       /\ (shape0 series_y < 3 -> dx = mk_ndarray (shape1 series_y) [])
       /\ (shape0 short_series < 3 -> dy = mk_ndarray (shape1 short_series) [])
       /\ numba_ddtw_distance default_closure 0 1 [series_y; short_series; open_mask]
          = (DPRecurrence dx dy open_mask (_custom_distance default_closure),
             [series_y; short_series; open_mask] ++ [dx; dy]).
Proof.
  split; [reflexivity|]. split; [reflexivity|]. split; [reflexivity|].
  split; [reflexivity|]. split; [right; vm_compute; lia|].
  apply ddtw_short_series_reaches_dp_core; try reflexivity. right. vm_compute. lia.
Defined.

Lemma factory_uncompiled_derivative_raises_TypeError_witness :
  compute_derivative interpreted_arguments = Some interpreted_average_of_slope
  /\ is_no_python_compiled_callable (@interpreted_average_of_slope float _) = false
  /\ dunder_name (@interpreted_average_of_slope float _) = Some "average_of_slope"%string
  /\ _distance_factory 0 1 interpreted_arguments two_series
     = (Raise PyTypeError, after_factory).
Proof.
  split; [reflexivity|]. split; [reflexivity|]. split; [reflexivity|].
  apply factory_uncompiled_derivative_raises_TypeError
    with (mask := 2) (f := interpreted_average_of_slope) (name := "average_of_slope"%string);
    reflexivity.
Defined.

Lemma factory_closure_refines_spec_composition_witness :
  _distance_factory 0 1 no_arguments two_series = (Ok default_closure, after_factory)
  /\ exists mask pointwise,
       resolve_bounding_matrix 0 1
         (default (LowerBounding_enum NO_BOUNDING) (lower_bounding no_arguments))
         (default 2%Z (window no_arguments))
         (default (fadd fone fone) (itakura_max_slope no_arguments))
         (bounding_matrix no_arguments) two_series = (Ok mask, after_factory)
       /\ distance_factory 0 1
            (default squared_distance_factory (custom_distance no_arguments))
            (kwargs no_arguments) after_factory
          = (Ok pointwise, after_factory)
       /\ forall _x _y : loc,
            numba_ddtw_distance default_closure _x _y
            = spec_specialized_distance
                (call_derivative
                   (default average_of_slope_callable (compute_derivative no_arguments)))
                mask pointwise _x _y.
Proof.
  split; [reflexivity|].
  apply factory_closure_refines_spec_composition. reflexivity.
Defined.

(** The two configurations run: the explicit mask at location 2 is kept
    and nothing is built, and the band of radius 1 is built as a new
    array. *)
Example ignored_strategy_factory :
  _distance_factory 0 1 ignored_strategy_arguments after_factory
  = (Ok default_closure, after_factory).
Proof. vm_compute. reflexivity. Qed.

Example sakoe_chiba_factory :
  _distance_factory 0 1 sakoe_chiba_arguments two_series
  = (Ok default_closure, two_series ++ [banded_mask]).
Proof. vm_compute. reflexivity. Qed.

Lemma factory_mask_resolution_witness :
  (nth_error after_factory 0 = Some series_x
   /\ nth_error after_factory 1 = Some series_y
   /\ bounding_matrix ignored_strategy_arguments = Some 2
   /\ lower_bounding_of_argument (LowerBounding_int 7) = Raise InvalidParameterError
   /\ _distance_factory 0 1 ignored_strategy_arguments after_factory
      = (Ok default_closure, after_factory))
  /\ (nth_error two_series 0 = Some series_x
      /\ nth_error two_series 1 = Some series_y
      /\ bounding_matrix sakoe_chiba_arguments = None
      /\ lower_bounding_of_argument (LowerBounding_int 2) = Ok SAKOE_CHIBA
      /\ exists mask,
           _distance_factory 0 1 sakoe_chiba_arguments two_series
           = (Ok default_closure, two_series ++ [mask])
           /\ shape mask = (4, 4)
           /\ forall i j, i < 4 -> j < 4 ->
                getitem mask i j
                = Some (if in_band (SakoeChiba 1) 4 4 i j then 0%float else infinity)).
Proof.
  split.
  - split; [reflexivity|]. split; [reflexivity|]. split; [reflexivity|].
    split; [reflexivity|].
    refine (proj1 (proj1 (@factory_mask_resolution float _ _ _ 0 1
                            ignored_strategy_arguments after_factory series_x series_y
                            squared_distance eq_refl eq_refl eq_refl eq_refl) 2 eq_refl)).
  - split; [reflexivity|]. split; [reflexivity|]. split; [reflexivity|].
    split; [reflexivity|].
    refine (proj1 (proj2 (@factory_mask_resolution float _ _ _ 0 1
                            sakoe_chiba_arguments two_series series_x series_y
                            squared_distance eq_refl eq_refl eq_refl eq_refl))
              eq_refl _ _ SAKOE_CHIBA eq_refl _).
    + vm_compute. lia.
    + vm_compute. lia.
    + vm_compute. discriminate.
Defined.

(** C8, refuted as stated: with [compute_derivative=halve_in_place], which
    passes the contract check, a call of the returned function overwrites
    the caller's series, and a second call on the same two series returns
    another value. *)
Lemma ddtw_closure_in_place_preprocessor_mutates :
  exists c h1 h2 h3,
    _distance_factory 0 1 in_place_arguments two_series = (Ok c, h1)
    /\ numba_ddtw_distance c 0 1 h1 = (Ok 1.25%float, h2)
    /\ numba_ddtw_distance c 0 1 h2 = (Ok 0.3125%float, h3)
    /\ nth_error h1 0 = Some series_x
    /\ nth_error h2 0 = Some halved_x
    /\ halved_x <> series_x
    /\ 1.25%float <> 0.3125%float.
Proof.
  exists in_place_closure, after_factory.
  do 2 eexists.
  split; [reflexivity|]. split; [vm_compute; reflexivity|]. split; [vm_compute; reflexivity|].
  split; [reflexivity|]. split; [reflexivity|]. split.
  - intros H.
    apply (f_equal (fun a => match rows a with (v :: _) :: _ => v | _ => 0%float end)) in H.
    revert H. now apply float_neq.
  - now apply float_neq.
Qed.

Lemma ddtw_closure_pure_with_pure_preprocessor_witness :
  _distance_factory 0 1 no_arguments two_series = (Ok default_closure, after_factory)
  /\ pure_preprocessor (default average_of_slope_callable (compute_derivative no_arguments))
  /\ 0 < List.length after_factory
  /\ 1 < List.length after_factory
  /\ _bounding_matrix default_closure < List.length after_factory
  /\ numba_ddtw_distance default_closure 0 1 after_factory = (Ok 0.3125%float, after_call)
  /\ (exists fresh, after_call = after_factory ++ fresh)
  /\ (forall l v, nth_error after_factory l = Some v -> nth_error after_call l = Some v)
  /\ (forall r2 h2,
        numba_ddtw_distance default_closure 0 1 after_call = (r2, h2) ->
        r2 = Ok 0.3125%float).
Proof.
  split; [reflexivity|]. split; [apply average_of_slope_callable_pure|].
  split; [vm_compute; lia|]. split; [vm_compute; lia|]. split; [vm_compute; lia|].
  split; [vm_compute; reflexivity|].
  apply ddtw_closure_pure_with_pure_preprocessor
    with (x := 0) (y := 1) (a := no_arguments) (h0 := two_series) (hf := after_factory).
  - reflexivity.
  - apply average_of_slope_callable_pure.
  - vm_compute; lia.
  - vm_compute; lia.
  - vm_compute; lia.
  - vm_compute; reflexivity.
Defined.

(** ** Further properties of the derivative *)

Section DerivativeFacts.
Context {F : Type} {SF : Scalar F}.

(** Entry [(i, j)] of the derivative, whenever the three entries it is
    computed from exist. *)
Lemma getitem_average_of_slope (x d : ndarray F) (i j : nat) (a b c : F) :
  _average_of_slope x = Ok d ->
  getitem x i j = Some a ->
  getitem x (i + 1) j = Some b ->
  getitem x (i + 2) j = Some c ->
  getitem d i j
  = Some (fsub (fadd (fmul quarter c) (fmul half b)) (fmul three_quarters a)).
Proof.
  intros Hd Ha Hb Hc. rewrite average_of_slope_rows in Hd. injection Hd as <-.
  destruct (getitem_rows _ _ _ Ha) as (p0 & E0 & Ea).
  destruct (getitem_rows _ _ _ Hb) as (p1 & E1 & Eb).
  destruct (getitem_rows _ _ _ Hc) as (p2 & E2 & Ec).
  unfold getitem. cbn [rows].
  rewrite (nth_error_derivative_rows _ _ E0 E1 E2).
  now apply getitem_slope_point.
Qed.

Lemma derivative_rows_short (l : list (list F)) :
  List.length l <= 2 -> derivative_rows l = [].
Proof.
  destruct l as [|p0 [|p1 [|p2 rest]]]; try reflexivity. simpl. lia.
Qed.

Lemma derivative_rows_skipn (k : nat) (l : list (list F)) :
  derivative_rows (skipn k l) = skipn k (derivative_rows l).
Proof.
  revert l. induction k as [|k IH]; intros l; [reflexivity|].
  destruct l as [|p0 t]; [reflexivity|].
  cbn [skipn]. rewrite IH.
  destruct t as [|p1 [|p2 rest]].
  - now rewrite skipn_nil.
  - cbn [derivative_rows]. now rewrite !skipn_nil.
  - change (derivative_rows (p0 :: p1 :: p2 :: rest))
      with (slope_point p0 p1 p2 :: derivative_rows (p1 :: p2 :: rest)).
    reflexivity.
Qed.

Lemma derivative_rows_firstn (k : nat) (l : list (list F)) :
  derivative_rows (firstn k l) = firstn (k - 2) (derivative_rows l).
Proof.
  revert k. induction l as [|p0 t IH]; intros k.
  - now rewrite !firstn_nil.
  - destruct k as [|[|[|k]]]; [reflexivity | reflexivity | now destruct t |].
    destruct t as [|p1 [|p2 rest]]; [reflexivity | reflexivity |].
    specialize (IH (S (S k))).
    change (firstn (S (S (S k))) (p0 :: p1 :: p2 :: rest))
      with (p0 :: p1 :: p2 :: firstn k rest).
    change (firstn (S (S k)) (p1 :: p2 :: rest)) with (p1 :: p2 :: firstn k rest) in IH.
    replace (S (S (S k)) - 2) with (S k) by lia.
    replace (S (S k) - 2) with k in IH by lia.
    change (derivative_rows (p0 :: p1 :: p2 :: rest))
      with (slope_point p0 p1 p2 :: derivative_rows (p1 :: p2 :: rest)).
    change (derivative_rows (p0 :: p1 :: p2 :: firstn k rest))
      with (slope_point p0 p1 p2 :: derivative_rows (p1 :: p2 :: firstn k rest)).
    cbn [firstn]. now rewrite IH.
Qed.

Lemma firstn_skipn_beyond (l : list (list F)) (n1 k1 n2 k2 : nat) :
  (k1 = k2 /\ n1 = n2) \/ (List.length l <= k1 /\ List.length l <= k2) ->
  firstn n1 (skipn k1 l) = firstn n2 (skipn k2 l).
Proof.
  intros [[-> ->] | [H1 H2]]; [reflexivity|].
  rewrite !skipn_all2 by assumption. now rewrite !firstn_nil.
Qed.

(** X4: taking the derivative commutes with slicing along the time axis.
    For a start [a >= 0] and a stop that is absent or at least 2, the
    derivative of [q[a:b]] is the slice [[a:b-2]] of the derivative of [q]
    (and of [q[a:]] the slice [[a:]]). *)
Theorem average_of_slope_of_slice (q : ndarray F) (start : Z) (stop : option Z) :
  (0 <= start)%Z ->
  (forall b, stop = Some b -> (2 <= b)%Z) ->
  _average_of_slope (getslice (Some start) stop q)
  = try d <- _average_of_slope q ;;
    Ok (getslice (Some start) (option_map (fun b => (b - 2)%Z) stop) d).
Proof.
  intros Hstart Hstop. rewrite !average_of_slope_rows. cbn [bind_result].
  unfold getslice. cbn [shape1 rows]. do 2 f_equal.
  rewrite derivative_rows_firstn, derivative_rows_skipn.
  unfold shape0. cbn [rows]. rewrite length_derivative_rows.
  set (n := List.length (rows q)).
  rewrite !(@slice_bound_nonneg 0 start) by assumption.
  apply firstn_skipn_beyond. rewrite length_derivative_rows. fold n.
  destruct stop as [b|]; cbn [option_map].
  - specialize (Hstop b eq_refl).
    rewrite (@slice_bound_nonneg n b), (@slice_bound_nonneg (n - 2) (b - 2)) by lia.
    lia.
  - unfold slice_bound. lia.
Qed.
End DerivativeFacts.

Section ExactDerivativeFacts.
Context {F : Type} {SF : Scalar F} {EX : ExactScalar F}.

Add Ring scalar_Ring_facts : scalar_ring.

(** X1: the code computes the average its docstring describes.  Every
    derivative point is the mean of the slope from the left neighbour to
    the point in question and of the slope between the two neighbours,
    [((b - a) + (c - a) / 2) / 2] for three consecutive values [a], [b],
    [c], halving being multiplication by 0.5. *)
Theorem average_of_slope_is_documented_average (x d : ndarray F) (i j : nat) (a b c : F) :
  fmul half half = quarter ->
  _average_of_slope x = Ok d ->
  getitem x i j = Some a ->
  getitem x (i + 1) j = Some b ->
  getitem x (i + 2) j = Some c ->
  getitem d i j = Some (fmul half (fadd (fsub b a) (fmul half (fsub c a)))).
Proof.
  intros Hh Hd Ha Hb Hc. rewrite (getitem_average_of_slope _ _ _ Hd Ha Hb Hc).
  f_equal. rewrite <- quarter_plus_half, <- Hh. ring.
Qed.

(** X2: the estimate is exact on straight lines.  Where three consecutive
    values of a channel are [a], [a + s] and [a + 2 s], the derivative
    is the step [s]. *)
Theorem average_of_slope_exact_on_lines (x d : ndarray F) (i j : nat) (a s : F) :
  fadd (fadd quarter quarter) half = fone ->
  _average_of_slope x = Ok d ->
  getitem x i j = Some a ->
  getitem x (i + 1) j = Some (fadd a s) ->
  getitem x (i + 2) j = Some (fadd (fadd a s) s) ->
  getitem d i j = Some s.
Proof.
  intros H1 Hd Ha Hb Hc. rewrite (getitem_average_of_slope _ _ _ Hd Ha Hb Hc).
  f_equal.
  transitivity (fmul (fadd (fadd quarter quarter) half) s).
  - rewrite <- quarter_plus_half. ring.
  - rewrite H1. ring.
Qed.

Lemma zip_with_repeat_r (f : list F -> list F -> list F) (l : list (list F)) (v : list F) :
  zip_with f l (repeat v (List.length l)) = map (fun r => f r v) l.
Proof.
  induction l as [|r l IH]; [reflexivity|].
  cbn [List.length repeat map]. now rewrite zip_with_cons, IH.
Qed.

Lemma add_offset_rows (x : ndarray F) (offset : list F) :
  add_offset x offset
  = Ok (mk_ndarray (shape1 x) (map (fun r => zip_with fadd r offset) (rows x))).
Proof.
  unfold add_offset, ndarray_add, elementwise. cbn [shape1].
  rewrite broadcast_dim_same.
  assert (Hid : forall l : list (list F), map (stretch (shape1 x) (shape1 x)) l = l).
  { intros l. rewrite <- (map_id l) at 2. apply map_ext. intros r. apply stretch_same. }
  rewrite !Hid.
  change (shape0 (mk_ndarray (shape1 x) [offset])) with 1.
  unfold broadcast_dim. destruct (shape0 x =? 1) eqn:E1.
  - apply Nat.eqb_eq in E1. rewrite E1, !stretch_same. do 2 f_equal.
    unfold shape0 in E1. destruct (rows x) as [|r [|r' l]]; try discriminate. reflexivity.
  - cbn [Nat.eqb]. rewrite stretch_same. do 2 f_equal.
    unfold stretch. rewrite Nat.eqb_sym, E1. apply zip_with_repeat_r.
Qed.

Lemma slope_value_offset (a b c o : F) :
  fsub (fadd (fmul quarter (fadd c o)) (fmul half (fadd b o)))
       (fmul three_quarters (fadd a o))
  = fsub (fadd (fmul quarter c) (fmul half b)) (fmul three_quarters a).
Proof. rewrite <- quarter_plus_half. ring. Qed.

Lemma slope_point_offset (m : nat) (p0 p1 p2 v : list F) :
  List.length p0 = m -> List.length p1 = m -> List.length p2 = m -> List.length v = m ->
  slope_point (zip_with fadd p0 v) (zip_with fadd p1 v) (zip_with fadd p2 v)
  = slope_point p0 p1 p2.
Proof.
  unfold slope_point. revert p0 p1 p2 v.
  induction m as [|m IH]; intros [|a p0] [|b p1] [|c p2] [|o v]; try discriminate;
    intros H0 H1 H2 Hv; [reflexivity|].
  rewrite !zip_with_cons. cbn [map]. rewrite !zip_with_cons.
  rewrite slope_value_offset. f_equal.
  apply IH; simpl in *; lia.
Qed.

Lemma derivative_rows_offset (l : list (list F)) (v : list F) :
  (forall r, In r l -> List.length r = List.length v) ->
  derivative_rows (map (fun r => zip_with fadd r v) l) = derivative_rows l.
Proof.
  induction l as [|p0 t IH]; intros Hw; [reflexivity|].
  destruct t as [|p1 [|p2 rest]]; [reflexivity | reflexivity |].
  cbn [map] in *.
  change (derivative_rows (p0 :: p1 :: p2 :: rest))
    with (slope_point p0 p1 p2 :: derivative_rows (p1 :: p2 :: rest)).
  match goal with
  | |- derivative_rows (?q0 :: ?q1 :: ?q2 :: ?qs) = _ =>
      change (derivative_rows (q0 :: q1 :: q2 :: qs))
        with (slope_point q0 q1 q2 :: derivative_rows (q1 :: q2 :: qs))
  end.
  rewrite IH by (intros r Hr; apply Hw; now right).
  f_equal. apply slope_point_offset with (m := List.length v);
    try reflexivity; apply Hw; simpl; auto.
Qed.

(** X3: in exact arithmetic the derivative ignores a constant offset.
    Adding one offset vector to every point of a series, as numpy's
    broadcasting of a [(1, m)] array does, leaves the derivative
    unchanged. *)
Theorem average_of_slope_offset_invariant (x : ndarray F) (offset : list F) :
  wf_ndarray x = true ->
  List.length offset = shape1 x ->
  exists shifted,
    add_offset x offset = Ok shifted
    /\ shape shifted = shape x
    /\ _average_of_slope shifted = _average_of_slope x.
Proof.
  intros Hwf Hlen. eexists. split; [apply add_offset_rows|]. split.
  - unfold shape, shape0. cbn [rows shape1]. now rewrite length_map.
  - rewrite !average_of_slope_rows. cbn [rows shape1]. do 2 f_equal.
    apply derivative_rows_offset. intros r Hr. rewrite Hlen.
    now apply (proj1 (wf_ndarray_rows x) Hwf).
Qed.
End ExactDerivativeFacts.

(** ** Further properties of the factory *)

Section FactoryStore.
Context {F : Type} {SF : Scalar F} {I : Infinity F} {E : Distances F}.

Lemma resolve_bounding_matrix_store (x y : loc) (lb : lower_bounding_argument) (w : Z)
    (s : F) (bm : option loc) (h h1 : heap F) (r : result loc) :
  resolve_bounding_matrix x y lb w s bm h = (r, h1) ->
  h1 = h \/ (bm = None /\ exists mask, h1 = h ++ [mask]).
Proof.
  destruct bm as [given|]; unfold resolve_bounding_matrix, ret, bind, lift, read, alloc.
  - intros [= _ <-]. now left.
  - destruct (lower_bounding_of_argument lb); [|intros [= _ <-]; now left].
    destruct (nth_error h x); [|intros [= _ <-]; now left].
    destruct (nth_error h y); [|intros [= _ <-]; now left].
    destruct (build_mask _ _ _) as [mask|e]; intros [= _ <-]; [|now left].
    right. split; [reflexivity|]. now exists mask.
Qed.

Lemma distance_factory_store (x y : loc) (metric : Metric) (kw : Kwargs) (h h1 : heap F)
    (r : result DistanceCallable) :
  distance_factory x y metric kw h = (r, h1) -> h1 = h.
Proof.
  unfold distance_factory, bind, read, lift.
  destruct (nth_error h x); [|now intros [= _ <-]].
  destruct (nth_error h y); now intros [= _ <-].
Qed.

(** X6: the factory never runs the derivative callable and never writes to
    an array.  Whatever the configuration and whether it succeeds or
    fails, the store after the factory is the store before it, with the
    new mask appended when no explicit bounding matrix was given; every
    array present before is unchanged. *)
Theorem factory_only_allocates_mask (x y : loc) (a : ddtw_arguments) (h h1 : heap F)
    (r : result ddtw_closure) :
  _distance_factory x y a h = (r, h1) ->
  (h1 = h \/ (bounding_matrix a = None /\ exists mask, h1 = h ++ [mask]))
  /\ (forall l v, nth_error h l = Some v -> nth_error h1 l = Some v).
Proof.
  intros Hf.
  assert (Hs : h1 = h \/ (bounding_matrix a = None /\ exists mask, h1 = h ++ [mask])).
  { revert Hf. unfold _distance_factory. unfold bind at 1.
    destruct (resolve_bounding_matrix _ _ _ _ _ _ h) as [[l|e] h0] eqn:Hr.
    - pose proof (resolve_bounding_matrix_store _ _ _ _ _ _ _ Hr) as Hh0.
      destruct (is_no_python_compiled_callable _); cbn [negb].
      + unfold bind at 1.
        destruct (distance_factory _ _ _ _ h0) as [[d|e] h2] eqn:Hd;
          pose proof (distance_factory_store _ _ _ _ _ Hd) as ->;
          unfold ret; now intros [= _ <-].
      + unfold bind, getattr_name, raise, ret.
        destruct (dunder_name _); now intros [= _ <-].
    - intros [= _ <-]. exact (resolve_bounding_matrix_store _ _ _ _ _ _ _ Hr). }
  split; [exact Hs|].
  intros l v Hl. destruct Hs as [-> | [_ [mask ->]]]; [exact Hl|].
  now apply stored_extend.
Qed.

(** X5: a derivative callable that fails the contract check and has no
    [__name__] makes the factory fail, once the mask is resolved, with
    [AttributeError]: building the message of the intended error reads
    the missing attribute. *)
Theorem factory_unnamed_derivative_raises_AttributeError (x y : loc) (a : ddtw_arguments)
    (h h1 : heap F) (mask : loc) (f : DerivativeCallable F) :
  compute_derivative a = Some f ->
  is_no_python_compiled_callable f = false ->
  dunder_name f = None ->
  resolve_bounding_matrix x y
    (default (LowerBounding_enum NO_BOUNDING) (lower_bounding a))
    (default 2%Z (window a))
    (default (fadd fone fone) (itakura_max_slope a))
    (bounding_matrix a) h = (Ok mask, h1) ->
  _distance_factory x y a h = (Raise PyAttributeError, h1).
Proof.
  intros Hcd Hc Hn Hr. unfold _distance_factory. unfold bind at 1.
  rewrite Hr, Hcd. cbn [default]. rewrite Hc. cbn [negb].
  unfold bind, getattr_name. rewrite Hn. reflexivity.
Qed.
End FactoryStore.

(** ** Properties of the MiniRocket wrappers *)

Import Rocket.

Section RocketFacts.
Context {F F32 : Type} {R : Runtime F F32}.

Lemma effective_n_jobs_range (n_jobs : Z) :
  (1 <= cpu_count)%Z ->
  (1 <= effective_n_jobs n_jobs <= cpu_count)%Z.
Proof. intros H. unfold effective_n_jobs. destruct (_ || _)%bool eqn:E; lia. Qed.

Lemma set_num_threads_accepts (n t : Z) :
  (1 <= n <= NUMBA_NUM_THREADS)%Z -> set_num_threads n t = (Returns tt, n).
Proof.
  intros H. unfold set_num_threads.
  replace ((n <? 1) || (NUMBA_NUM_THREADS <? n))%Z%bool with false; [reflexivity|].
  symmetry. apply orb_false_iff. split; lia.
Qed.

Lemma set_num_threads_returns (n t t' : Z) (u : unit) :
  set_num_threads n t = (Returns u, t') -> t' = n.
Proof. unfold set_num_threads. destruct (_ || _)%bool; now intros [= _ <-]. Qed.

(** X7: [MiniRocket._fit] refuses a panel whose series have fewer than
    nine points with [ValueError], once [random_state] is converted and
    the first dimension is selected, and whatever the kernel would do. *)
Theorem minirocket_fit_rejects_short_series (self : MiniRocket.MiniRocket)
    (X : ndarray3 F) (seed : option Z) :
  int32_or_None (MiniRocket.random_state self) = Returns seed ->
  n_dimensions X <> 0 ->
  series_length X < 9 ->
  MiniRocket._fit self X = Raises ValueError.
Proof.
  intros Hseed Hd Hlen. unfold MiniRocket._fit. rewrite Hseed. cbn [and_then].
  unfold first_dimension. apply Nat.eqb_neq in Hd. rewrite Hd. cbn [and_then].
  cbn [astype_float32 shape1]. apply Nat.ltb_lt in Hlen. now rewrite Hlen.
Qed.

(** X8: [MiniRocketMultivariate._fit] refuses a panel whose series have
    fewer than nine points with [ValueError], whatever the object, the
    number of dimensions and the kernel are. *)
Theorem minirocket_multivariate_fit_rejects_short_series
    (self : MiniRocketMultivariate.MiniRocketMultivariate) (X : ndarray3 F) :
  series_length X < 9 ->
  MiniRocketMultivariate._fit self X = Raises ValueError.
Proof.
  intros Hlen. unfold MiniRocketMultivariate._fit. cbn [astype_float32_3 series_length].
  apply Nat.ltb_lt in Hlen. now rewrite Hlen.
Qed.

(** What a successful [MiniRocket._fit] has done. *)
Lemma minirocket_fit_inversion (self fitted : MiniRocket.MiniRocket) (X : ndarray3 F) :
  MiniRocket._fit self X = Returns fitted ->
  9 <= series_length X
  /\ exists seed X0 p,
       int32_or_None (MiniRocket.random_state self) = Returns seed
       /\ first_dimension X = Returns X0
       /\ numba_fit (astype_float32 X0) (MiniRocket.num_kernels self)
            (MiniRocket.max_dilations_per_kernel self) seed = Returns p
       /\ fitted = MiniRocket.mk_MiniRocket (MiniRocket.num_kernels self)
                     (MiniRocket.max_dilations_per_kernel self) (MiniRocket.n_jobs self)
                     (MiniRocket.random_state self) (Some p).
Proof.
  unfold MiniRocket._fit.
  destruct (int32_or_None _) as [seed|e]; [|discriminate]. cbn [and_then].
  destruct (first_dimension X) as [X0|e] eqn:HX; [|discriminate]. cbn [and_then].
  assert (Hw : shape1 (astype_float32 X0) = series_length X).
  { revert HX. unfold first_dimension. destruct (_ =? _); [discriminate|].
    now intros [= <-]. }
  rewrite Hw. destruct (series_length X <? 9) eqn:Hlen; [discriminate|].
  destruct (numba_fit _ _ _ _) as [p|e] eqn:Hp; [|discriminate]. cbn [and_then].
  intros [= <-]. apply Nat.ltb_ge in Hlen. split; [exact Hlen|].
  exists seed, X0, p. repeat split; assumption || reflexivity.
Qed.

(** A run of [MiniRocket._transform] on a fitted object, where numba has
    launched at least as many threads as there are processors. *)
Lemma minirocket_transform_run (self : MiniRocket.MiniRocket) (X : ndarray3 F)
    (X0 : ndarray F) (p : FittedParameters) (t : Z) :
  (1 <= cpu_count <= NUMBA_NUM_THREADS)%Z ->
  first_dimension X = Returns X0 ->
  MiniRocket.parameters self = Some p ->
  MiniRocket._transform self X t
  = match numba_transform (astype_float32 X0) p with
    | Returns features =>
        (step _v <- set_num_threads t ;; eff_ret (pd_DataFrame features))
          (effective_n_jobs (MiniRocket.n_jobs self))
    | Raises e => (Raises e, effective_n_jobs (MiniRocket.n_jobs self))
    end.
Proof.
  intros Hcpu HX Hp.
  unfold MiniRocket._transform, eff_bind, eff_lift, eff_ret, get_num_threads.
  rewrite HX, set_num_threads_accepts, Hp; cbn [getattr_parameters].
  - destruct (numba_transform _ _); reflexivity.
  - pose proof (effective_n_jobs_range (MiniRocket.n_jobs self)). lia.
Qed.

(** X9: fitting, then transforming.  After a successful [MiniRocket._fit]
    the series seen had at least nine points and [parameters] is set, so
    that [_transform] on the fitted object never misses the attribute:
    for a panel the kernel accepts it returns the kernel's features for
    the parameters fitted, with the object's [n_jobs] unchanged by the
    fit. *)
Theorem minirocket_fit_then_transform (self fitted : MiniRocket.MiniRocket)
    (X X' : ndarray3 F) (X0' : ndarray F) (t : Z) :
  (1 <= cpu_count <= NUMBA_NUM_THREADS)%Z ->
  (1 <= t <= NUMBA_NUM_THREADS)%Z ->
  MiniRocket._fit self X = Returns fitted ->
  first_dimension X' = Returns X0' ->
  9 <= series_length X
  /\ MiniRocket.n_jobs fitted = MiniRocket.n_jobs self
  /\ exists p,
       MiniRocket.parameters fitted = Some p
       /\ forall features,
            numba_transform (astype_float32 X0') p = Returns features ->
            MiniRocket._transform fitted X' t = (Returns (pd_DataFrame features), t).
Proof.
  intros Hcpu Ht Hfit HX'.
  destruct (minirocket_fit_inversion _ _ Hfit) as (Hlen & seed & X0 & p & _ & _ & _ & ->).
  split; [exact Hlen|]. split; [reflexivity|].
  exists p. split; [reflexivity|]. intros features Hf.
  rewrite minirocket_transform_run with (X0 := X0') (p := p) by (assumption || reflexivity).
  rewrite Hf. unfold eff_bind, eff_ret. now rewrite set_num_threads_accepts.
Qed.

(** X10: [MiniRocket] reads the first dimension of a panel only.  Fitting
    on, or transforming, a panel with several dimensions is fitting on,
    or transforming, the panel reduced to its first dimension. *)
Theorem minirocket_ignores_other_dimensions (self : MiniRocket.MiniRocket)
    (X : ndarray3 F) :
  n_dimensions X <> 0 ->
  MiniRocket._fit self X = MiniRocket._fit self (only_first_dimension X)
  /\ forall t, MiniRocket._transform self X t
               = MiniRocket._transform self (only_first_dimension X) t.
Proof.
  intros Hd.
  assert (HX : first_dimension (only_first_dimension X) = first_dimension X).
  { unfold first_dimension, only_first_dimension. cbn [n_dimensions series_length instances].
    apply Nat.eqb_neq in Hd. rewrite Hd. cbn [Nat.eqb]. do 2 f_equal.
    rewrite map_map. apply map_ext. intros [|d ds]; reflexivity. }
  split.
  - unfold MiniRocket._fit. now rewrite HX.
  - intros t. unfold MiniRocket._transform. now rewrite HX.
Qed.

(** X11: when [MiniRocket._transform] returns, numba's number of threads
    is what it was before the call. *)
Theorem minirocket_transform_restores_threads (self : MiniRocket.MiniRocket)
    (X : ndarray3 F) (t t' : Z) (frame : DataFrame) :
  MiniRocket._transform self X t = (Returns frame, t') ->
  t' = t.
Proof.
  unfold MiniRocket._transform, eff_bind, eff_lift, eff_ret, get_num_threads.
  destruct (first_dimension X); [|discriminate].
  destruct (set_num_threads (effective_n_jobs _) t) as [[u|e] t1]; [|discriminate].
  destruct (getattr_parameters _); [|discriminate].
  destruct (numba_transform _ _); [|discriminate].
  destruct (set_num_threads t t1) as [[v|e] t2] eqn:Hs; [|discriminate].
  intros [= _ <-]. exact (set_num_threads_returns _ _ Hs).
Qed.

(** X12: when [MiniRocketMultivariate._transform] returns, numba's number
    of threads is what it was before the call. *)
Theorem minirocket_multivariate_transform_restores_threads
    (self : MiniRocketMultivariate.MiniRocketMultivariate) (X : ndarray3 F) (t t' : Z)
    (frame : DataFrame) :
  MiniRocketMultivariate._transform self X t = (Returns frame, t') ->
  t' = t.
Proof.
  unfold MiniRocketMultivariate._transform, eff_bind, eff_lift, eff_ret, get_num_threads.
  destruct (set_num_threads (effective_n_jobs _) t) as [[u|e] t1]; [|discriminate].
  destruct (getattr_parameters _); [|discriminate].
  destruct (numba_transform_multi _ _); [|discriminate].
  destruct (set_num_threads t t1) as [[v|e] t2] eqn:Hs; [|discriminate].
  intros [= _ <-]. exact (set_num_threads_returns _ _ Hs).
Qed.

(** X13: for a fitted object and a panel on which the kernel raises,
    [MiniRocket._transform] reaches the kernel exactly when numba accepts
    the number of threads the call asks for, whatever the numbers of
    processors and of threads launched are.  It then raises the kernel's
    error and does not restore numba's number of threads, which is left
    at the number asked for: there is no [finally] around the kernel.
    When numba refuses that number, the call fails with its [ValueError]
    before the kernel and the number of threads is untouched. *)
Theorem minirocket_transform_failure_leaves_threads (self : MiniRocket.MiniRocket)
    (X : ndarray3 F) (X0 : ndarray F) (p : FittedParameters) (e : py_error) (t : Z) :
  first_dimension X = Returns X0 ->
  MiniRocket.parameters self = Some p ->
  numba_transform (astype_float32 X0) p = Raises e ->
  ((1 <= effective_n_jobs (MiniRocket.n_jobs self) <= NUMBA_NUM_THREADS)%Z ->
   MiniRocket._transform self X t
   = (Raises e, effective_n_jobs (MiniRocket.n_jobs self)))
  /\ (~ (1 <= effective_n_jobs (MiniRocket.n_jobs self) <= NUMBA_NUM_THREADS)%Z ->
      MiniRocket._transform self X t = (Raises ValueError, t)).
Proof.
  intros HX Hp He.
  unfold MiniRocket._transform, eff_bind, eff_lift, eff_ret, get_num_threads.
  rewrite HX. split.
  - intros Hn. rewrite set_num_threads_accepts by exact Hn.
    rewrite Hp. cbn [getattr_parameters]. now rewrite He.
  - intros Hn. unfold set_num_threads at 1.
    replace ((effective_n_jobs (MiniRocket.n_jobs self) <? 1)
             || (NUMBA_NUM_THREADS <? effective_n_jobs (MiniRocket.n_jobs self)))%Z%bool
      with true; [reflexivity|].
    symmetry. apply orb_true_iff.
    destruct (Z.ltb_spec (effective_n_jobs (MiniRocket.n_jobs self)) 1) as [H1|H1];
      [now left|].
    right. apply Z.ltb_lt. lia.
Qed.

(** X14: no value of [n_jobs] makes [MiniRocket._transform] fail when numba
    has launched at least as many threads as there are processors.  For a
    fitted object and a panel the kernel accepts, the call returns the
    kernel's features as a data frame, also for [n_jobs] zero, negative
    or beyond the number of processors. *)
Theorem minirocket_transform_accepts_any_n_jobs (self : MiniRocket.MiniRocket)
    (X : ndarray3 F) (X0 : ndarray F) (p : FittedParameters) (features : Features)
    (t : Z) :
  (1 <= cpu_count <= NUMBA_NUM_THREADS)%Z ->
  (1 <= t <= NUMBA_NUM_THREADS)%Z ->
  first_dimension X = Returns X0 ->
  MiniRocket.parameters self = Some p ->
  numba_transform (astype_float32 X0) p = Returns features ->
  MiniRocket._transform self X t = (Returns (pd_DataFrame features), t).
Proof.
  intros Hcpu Ht HX Hp Hf.
  rewrite minirocket_transform_run with (X0 := X0) (p := p) by assumption.
  rewrite Hf. unfold eff_bind, eff_ret. now rewrite set_num_threads_accepts.
Qed.

(** X15: when numba has launched fewer threads than there are processors,
    [MiniRocket._transform] with [n_jobs] below 1 or above the number of
    processors, [n_jobs=-1] among them, fails with numba's [ValueError]
    before the kernel runs. *)
Theorem minirocket_transform_all_processors_too_many (self : MiniRocket.MiniRocket)
    (X : ndarray3 F) (X0 : ndarray F) (t : Z) :
  (NUMBA_NUM_THREADS < cpu_count)%Z ->
  (MiniRocket.n_jobs self < 1 \/ cpu_count < MiniRocket.n_jobs self)%Z ->
  first_dimension X = Returns X0 ->
  MiniRocket._transform self X t = (Raises ValueError, t).
Proof.
  intros Hmax Hj HX.
  unfold MiniRocket._transform, eff_bind, eff_lift, eff_ret, get_num_threads.
  rewrite HX. unfold set_num_threads at 1, effective_n_jobs.
  replace ((MiniRocket.n_jobs self <? 1) || (cpu_count <? MiniRocket.n_jobs self))%Z%bool
    with true by (symmetry; apply orb_true_iff; lia).
  replace ((cpu_count <? 1) || (NUMBA_NUM_THREADS <? cpu_count))%Z%bool
    with true by (symmetry; apply orb_true_iff; lia).
  reflexivity.
Qed.

(** X16: [MiniRocketMultivariate.__init__] accepts [random_state] exactly
    when it is [None] or an [int] (a [bool] included) that [np.int32]
    converts; an object of another type is refused with [ValueError].
    The new object is not fitted and holds the converted seed. *)
Theorem minirocket_multivariate_init_random_state (k d j : Z) (random_state : py_object)
    (self : MiniRocketMultivariate.MiniRocketMultivariate) :
  (forall type_name,
     MiniRocketMultivariate.__init__ k d j (PyOther type_name) = Raises ValueError)
  /\ (MiniRocketMultivariate.__init__ k d j random_state = Returns self <->
      exists seed,
        int32_or_None random_state = Returns seed
        /\ (random_state = PyNone \/ isinstance_int random_state = true)
        /\ self = MiniRocketMultivariate.mk_MiniRocketMultivariate k d j random_state
                    seed None).
Proof.
  split; [reflexivity|].
  unfold MiniRocketMultivariate.__init__. split.
  - destruct random_state as [|z|b|ty]; cbn [MiniRocketMultivariate.is_None
      isinstance_int negb andb]; try discriminate.
    + intros [= <-]. exists None. repeat split. now left.
    + destruct (int32_or_None (PyInt z)) as [seed|e]; [|discriminate].
      intros [= <-]. exists seed. repeat split. now right.
    + destruct (int32_or_None (PyBool b)) as [seed|e]; [|discriminate].
      intros [= <-]. exists seed. repeat split. now right.
  - intros (seed & Hseed & Hty & ->).
    assert (Hcheck : negb (MiniRocketMultivariate.is_None random_state)
                     && negb (isinstance_int random_state) = false).
    { destruct Hty as [-> | Hi]; [reflexivity|]. rewrite Hi. apply andb_false_r. }
    now rewrite Hcheck, Hseed.
Qed.

(** X17: [MiniRocket._fit] does not refuse a [random_state] that is neither
    [None] nor an [int]: it passes no seed to the kernel, and the fitted
    parameters are those of an object with [random_state=None]. *)
Theorem minirocket_fit_ignores_other_random_state (k d j : Z) (type_name : string)
    (p : option FittedParameters) (X : ndarray3 F) :
  (attempt s <- MiniRocket._fit (MiniRocket.mk_MiniRocket k d j (PyOther type_name) p) X ;;
   Returns (MiniRocket.parameters s))
  = (attempt s <- MiniRocket._fit (MiniRocket.mk_MiniRocket k d j PyNone p) X ;;
     Returns (MiniRocket.parameters s)).
Proof.
  unfold MiniRocket._fit. cbn [MiniRocket.random_state int32_or_None isinstance_int and_then].
  destruct (first_dimension X) as [X0|e]; [|reflexivity]. cbn [and_then].
  destruct (_ <? 9); [reflexivity|].
  cbn [MiniRocket.num_kernels MiniRocket.max_dilations_per_kernel].
  destruct (numba_fit _ _ _ _); reflexivity.
Qed.
End RocketFacts.

(** ** Instances of the further statements *)

Lemma Qc_half_half : fmul (half : Qc) half = quarter.
Proof. apply Qc_is_canon. reflexivity. Qed.

Lemma Qc_quarters_half : fadd (fadd (quarter : Qc) quarter) half = fone.
Proof. apply Qc_is_canon. reflexivity. Qed.

(** The derivative of [line_series], as the rows computed from it. *)
Lemma average_of_slope_line_series :
  _average_of_slope line_series = Ok (mk_ndarray 2 (derivative_rows (rows line_series))).
Proof. apply average_of_slope_rows. Qed.

Lemma average_of_slope_is_documented_average_witness :
  fmul (half : Qc) half = quarter
  /\ _average_of_slope line_series = Ok (mk_ndarray 2 (derivative_rows (rows line_series)))
  /\ getitem line_series 0 0 = Some (rational 1)
  /\ getitem line_series (0 + 1) 0 = Some (rational 3)
  /\ getitem line_series (0 + 2) 0 = Some (rational 5)
  /\ getitem (mk_ndarray 2 (derivative_rows (rows line_series))) 0 0
     = Some (fmul half (fadd (fsub (rational 3) (rational 1))
                          (fmul half (fsub (rational 5) (rational 1))))).
Proof.
  split; [exact Qc_half_half|]. split; [exact average_of_slope_line_series|].
  split; [reflexivity|]. split; [reflexivity|]. split; [reflexivity|].
  apply (@average_of_slope_is_documented_average Qc Qc_Scalar Qc_ExactScalar line_series);
    [exact Qc_half_half | exact average_of_slope_line_series | reflexivity..].
Defined.

Lemma average_of_slope_exact_on_lines_witness :
  fadd (fadd (quarter : Qc) quarter) half = fone
  /\ _average_of_slope line_series = Ok (mk_ndarray 2 (derivative_rows (rows line_series)))
  /\ getitem line_series 1 1 = Some (rational (-1))
  /\ getitem line_series (1 + 1) 1 = Some (fadd (rational (-1)) (rational (-1)))
  /\ getitem line_series (1 + 2) 1
     = Some (fadd (fadd (rational (-1)) (rational (-1))) (rational (-1)))
  /\ getitem (mk_ndarray 2 (derivative_rows (rows line_series))) 1 1 = Some (rational (-1)).
Proof.
  split; [exact Qc_quarters_half|]. split; [exact average_of_slope_line_series|].
  split; [reflexivity|]. split; [reflexivity|]. split; [reflexivity|].
  apply (@average_of_slope_exact_on_lines Qc Qc_Scalar Qc_ExactScalar line_series)
    with (a := rational (-1));
    [exact Qc_quarters_half | exact average_of_slope_line_series | reflexivity..].
Defined.

Lemma average_of_slope_offset_invariant_witness :
  wf_ndarray rising_series = true
  /\ List.length [rational 10; rational (-7)] = shape1 rising_series
  /\ exists shifted,
       add_offset rising_series [rational 10; rational (-7)] = Ok shifted
       /\ shape shifted = shape rising_series
       /\ _average_of_slope shifted = _average_of_slope rising_series.
Proof.
  split; [reflexivity|]. split; [reflexivity|].
  apply (@average_of_slope_offset_invariant Qc Qc_Scalar Qc_ExactScalar); reflexivity.
Defined.

Lemma average_of_slope_of_slice_witness :
  (0 <= 1)%Z
  /\ (forall b, Some 4%Z = Some b -> (2 <= b)%Z)
  /\ _average_of_slope (getslice (Some 1%Z) (Some 4%Z) line_series)
     = (try d <- _average_of_slope line_series ;;
        Ok (getslice (Some 1%Z) (option_map (fun b => (b - 2)%Z) (Some 4%Z)) d)).
Proof.
  split; [lia|]. split; [intros b [= <-]; lia|].
  apply (@average_of_slope_of_slice Qc Qc_Scalar line_series 1 (Some 4%Z));
    [lia | intros b [= <-]; lia].
Defined.

Lemma factory_unnamed_derivative_raises_AttributeError_witness :
  compute_derivative unnamed_arguments = Some unnamed_derivative
  /\ is_no_python_compiled_callable (@unnamed_derivative float _) = false
  /\ dunder_name (@unnamed_derivative float _) = None
  /\ _distance_factory 0 1 unnamed_arguments two_series
     = (Raise PyAttributeError, after_factory).
Proof.
  split; [reflexivity|]. split; [reflexivity|]. split; [reflexivity|].
  apply factory_unnamed_derivative_raises_AttributeError
    with (mask := 2) (f := unnamed_derivative); reflexivity.
Defined.

Lemma factory_only_allocates_mask_witness :
  _distance_factory 0 1 in_place_arguments two_series = (Ok in_place_closure, after_factory)
  /\ (after_factory = two_series
      \/ (bounding_matrix in_place_arguments = None
          /\ exists mask, after_factory = two_series ++ [mask]))
  /\ (forall l v, nth_error two_series l = Some v -> nth_error after_factory l = Some v).
Proof.
  split; [reflexivity|].
  apply factory_only_allocates_mask with (x := 0) (y := 1) (a := in_place_arguments)
    (r := Ok in_place_closure).
  reflexivity.
Defined.

Import Rocket.Sample.

Lemma minirocket_fit_rejects_short_series_witness :
  int32_or_None (MiniRocket.random_state Sample.fresh) = Returns None
  /\ n_dimensions Sample.short_panel <> 0
  /\ series_length Sample.short_panel < 9
  /\ MiniRocket._fit Sample.fresh Sample.short_panel = Raises ValueError.
Proof.
  split; [reflexivity|]. split; [discriminate|]. split; [vm_compute; lia|].
  apply minirocket_fit_rejects_short_series with (seed := None);
    [reflexivity | discriminate | vm_compute; lia].
Defined.

Lemma minirocket_multivariate_fit_rejects_short_series_witness :
  series_length Sample.short_panel < 9
  /\ MiniRocketMultivariate._fit Sample.fresh_multivariate Sample.short_panel
     = Raises ValueError.
Proof.
  split; [vm_compute; lia|].
  apply minirocket_multivariate_fit_rejects_short_series. vm_compute. lia.
Defined.

Lemma minirocket_fit_then_transform_witness :
  (1 <= @cpu_count Z Z Sample.runtime <= @NUMBA_NUM_THREADS Z Z Sample.runtime)%Z
  /\ (1 <= 3 <= @NUMBA_NUM_THREADS Z Z Sample.runtime)%Z
  /\ MiniRocket._fit Sample.fresh Sample.panel = Returns Sample.fitted
  /\ first_dimension Sample.panel
     = Returns (mk_ndarray 10 (map (fun inst => hd [] inst) (instances Sample.panel)))
  /\ 9 <= series_length Sample.panel
  /\ MiniRocket.n_jobs Sample.fitted = MiniRocket.n_jobs Sample.fresh
  /\ exists p,
       MiniRocket.parameters Sample.fitted = Some p
       /\ forall features,
            numba_transform
              (astype_float32
                 (mk_ndarray 10 (map (fun inst => hd [] inst) (instances Sample.panel)))) p
            = Returns features ->
            MiniRocket._transform Sample.fitted Sample.panel 3%Z
            = (Returns (pd_DataFrame features), 3%Z).
Proof.
  split; [vm_compute; split; discriminate|]. split; [vm_compute; split; discriminate|].
  split; [reflexivity|]. split; [reflexivity|].
  apply minirocket_fit_then_transform with (self := Sample.fresh) (X := Sample.panel);
    [vm_compute; split; discriminate | vm_compute; split; discriminate
    | reflexivity | reflexivity].
Defined.

Lemma minirocket_ignores_other_dimensions_witness :
  n_dimensions Sample.panel <> 0
  /\ MiniRocket._fit Sample.fresh Sample.panel
     = MiniRocket._fit Sample.fresh (only_first_dimension Sample.panel)
  /\ forall t, MiniRocket._transform Sample.fitted Sample.panel t
               = MiniRocket._transform Sample.fitted (only_first_dimension Sample.panel) t.
Proof.
  split; [discriminate|]. split.
  - apply (minirocket_ignores_other_dimensions Sample.fresh). discriminate.
  - apply (minirocket_ignores_other_dimensions Sample.fitted). discriminate.
Defined.

Lemma minirocket_transform_restores_threads_witness :
  MiniRocket._transform Sample.fitted_all_processors Sample.panel 3%Z
  = (Returns Sample.panel_frame, 3%Z)
  /\ 3%Z = 3%Z.
Proof.
  split; [reflexivity|].
  apply minirocket_transform_restores_threads
    with (self := Sample.fitted_all_processors) (X := Sample.panel)
         (frame := Sample.panel_frame).
  reflexivity.
Defined.

Lemma minirocket_multivariate_transform_restores_threads_witness :
  MiniRocketMultivariate._transform Sample.fitted_multivariate Sample.panel 3%Z
  = (Returns Sample.panel_frame, 3%Z)
  /\ 3%Z = 3%Z.
Proof.
  split; [reflexivity|].
  apply minirocket_multivariate_transform_restores_threads
    with (self := Sample.fitted_multivariate) (X := Sample.panel)
         (frame := Sample.panel_frame).
  reflexivity.
Defined.

Lemma minirocket_transform_failure_leaves_threads_witness :
  first_dimension Sample.short_panel
  = Returns (mk_ndarray 8 (map (fun inst => hd [] inst) (instances Sample.short_panel)))
  /\ MiniRocket.parameters Sample.fitted_one_job_few_threads = Some Sample.panel_parameters
  /\ @numba_transform Z Z Sample.few_threads
       (@astype_float32 Z Z Sample.few_threads
          (mk_ndarray 8 (map (fun inst => hd [] inst) (instances Sample.short_panel))))
       Sample.panel_parameters = Raises ValueError
  /\ (@NUMBA_NUM_THREADS Z Z Sample.few_threads < @cpu_count Z Z Sample.few_threads)%Z
  /\ @effective_n_jobs Z Z Sample.few_threads
       (MiniRocket.n_jobs Sample.fitted_one_job_few_threads) = 1%Z
  /\ MiniRocket._transform Sample.fitted_one_job_few_threads Sample.short_panel 2%Z
     = (Raises ValueError, 1%Z)
  /\ MiniRocket.parameters Sample.fitted_few_threads = Some Sample.panel_parameters
  /\ @effective_n_jobs Z Z Sample.few_threads (MiniRocket.n_jobs Sample.fitted_few_threads)
     = 4%Z
  /\ MiniRocket._transform Sample.fitted_few_threads Sample.short_panel 2%Z
     = (Raises ValueError, 2%Z).
Proof.
  split; [reflexivity|]. split; [reflexivity|]. split; [reflexivity|].
  split; [reflexivity|]. split; [reflexivity|]. split.
  { refine (proj1 (@minirocket_transform_failure_leaves_threads Z Z Sample.few_threads
                     Sample.fitted_one_job_few_threads Sample.short_panel
                     (mk_ndarray 8
                        (map (fun inst => hd [] inst) (instances Sample.short_panel)))
                     Sample.panel_parameters ValueError 2%Z eq_refl eq_refl eq_refl) _).
    vm_compute. split; discriminate. }
  split; [reflexivity|]. split; [reflexivity|].
  refine (proj2 (@minirocket_transform_failure_leaves_threads Z Z Sample.few_threads
                   Sample.fitted_few_threads Sample.short_panel
                   (mk_ndarray 8
                      (map (fun inst => hd [] inst) (instances Sample.short_panel)))
                   Sample.panel_parameters ValueError 2%Z eq_refl eq_refl eq_refl) _).
  vm_compute. intros [_ H]. apply H. reflexivity.
Defined.

Lemma minirocket_transform_accepts_any_n_jobs_witness :
  (1 <= @cpu_count Z Z Sample.runtime <= @NUMBA_NUM_THREADS Z Z Sample.runtime)%Z
  /\ (1 <= 3 <= @NUMBA_NUM_THREADS Z Z Sample.runtime)%Z
  /\ first_dimension Sample.panel
     = Returns (mk_ndarray 10 (map (fun inst => hd [] inst) (instances Sample.panel)))
  /\ MiniRocket.parameters Sample.fitted_all_processors = Some Sample.panel_parameters
  /\ numba_transform
       (astype_float32
          (mk_ndarray 10 (map (fun inst => hd [] inst) (instances Sample.panel))))
       Sample.panel_parameters = Returns Sample.panel_features
  /\ MiniRocket._transform Sample.fitted_all_processors Sample.panel 3%Z
     = (Returns Sample.panel_frame, 3%Z).
Proof.
  split; [vm_compute; split; discriminate|]. split; [vm_compute; split; discriminate|].
  split; [reflexivity|]. split; [reflexivity|]. split; [reflexivity|].
  apply minirocket_transform_accepts_any_n_jobs
    with (X0 := mk_ndarray 10 (map (fun inst => hd [] inst) (instances Sample.panel)))
         (p := Sample.panel_parameters);
    [vm_compute; split; discriminate | vm_compute; split; discriminate | reflexivity..].
Defined.

Lemma minirocket_transform_all_processors_too_many_witness :
  (@NUMBA_NUM_THREADS Z Z Sample.few_threads < @cpu_count Z Z Sample.few_threads)%Z
  /\ (MiniRocket.n_jobs Sample.fitted_few_threads < 1
      \/ @cpu_count Z Z Sample.few_threads < MiniRocket.n_jobs Sample.fitted_few_threads)%Z
  /\ first_dimension Sample.panel
     = Returns (mk_ndarray 10 (map (fun inst => hd [] inst) (instances Sample.panel)))
  /\ MiniRocket._transform Sample.fitted_few_threads Sample.panel 2%Z
     = (Raises ValueError, 2%Z).
Proof.
  split; [reflexivity|]. split; [left; reflexivity|]. split; [reflexivity|].
  apply minirocket_transform_all_processors_too_many
    with (X0 := mk_ndarray 10 (map (fun inst => hd [] inst) (instances Sample.panel)));
    [reflexivity | left; reflexivity | reflexivity].
Defined.
